(** * importer_launcher.py: the Ultra Librarian importer launcher

    A shallow embedding of [plugin/importer_launcher.py] and the proofs of
    its launcher contract.  The script resolves the bundled executable next
    to its own location, checks that something exists there, starts it with
    the interpreter's environment mapping, waits for it and leaves through
    [sys.exit] with the code [wait] returned.

    Layout:
    - [pystr]      the few methods of Python's [str] the path code uses;
    - [posixpath]  the POSIX flavour of [os.path], after CPython's
                   [Lib/posixpath.py];
    - [py]         outcomes, the operating environment and the effect
                   monad;
    - [os], [sys], [subprocess]  the calls the script makes, [os.path]
                   being an interface with [posixpath] as one instance;
    - [importer_launcher]  the script itself, statement by statement;
    - [observe], [machine]  what a run shows, and the state machine of
                   the design;
    - the theorems. *)

From Stdlib Require Import ZArith Ascii String List Lia.
From stdpp Require Import base gmap strings list.
Import ListNotations.

Local Open Scope string_scope.
Local Open Scope Z_scope.

(** ** Python string methods *)

Module pystr.

Definition is_sep (c : ascii) : bool := Ascii.eqb c "/".

(** [s.startswith('/')] *)
Definition startswith_sep (s : string) : bool :=
  match s with
  | String c _ => is_sep c
  | EmptyString => false
  end.

(** [s.endswith('/')] *)
Fixpoint endswith_sep (s : string) : bool :=
  match s with
  | EmptyString => false
  | String c EmptyString => is_sep c
  | String _ r => endswith_sep r
  end.

(** [s.rfind('/')]: the highest index holding a slash, [-1] without one.
    [i] is the index of the head of [s], [last] the best index so far. *)
Fixpoint rfind_sep_from (s : string) (i last : Z) : Z :=
  match s with
  | EmptyString => last
  | String c r => rfind_sep_from r (i + 1) (if is_sep c then i else last)
  end.

Definition rfind_sep (s : string) : Z := rfind_sep_from s 0 (-1).

(** [s[:i]] for [0 <= i] *)
Definition slice_to (s : string) (i : Z) : string :=
  String.substring 0 (Z.to_nat i) s.

(** [s == '/' * len(s)] *)
Fixpoint all_sep (s : string) : bool :=
  match s with
  | EmptyString => true
  | String c r => is_sep c && all_sep r
  end.

(** [s.rstrip('/')] *)
Fixpoint rstrip_sep (s : string) : string :=
  match s with
  | EmptyString => EmptyString
  | String c r =>
      match rstrip_sep r with
      | EmptyString => if is_sep c then EmptyString else String c EmptyString
      | r' => String c r'
      end
  end.

(** [s.split('/')] *)
Fixpoint split_sep (s : string) : list string :=
  match s with
  | EmptyString => [EmptyString]
  | String c r =>
      if is_sep c then EmptyString :: split_sep r
      else match split_sep r with
           | h :: t => String c h :: t
           | [] => [String c EmptyString]
           end
  end.

(** ['/' * n] *)
Fixpoint seps (n : nat) : string :=
  match n with
  | O => EmptyString
  | S k => String "/" (seps k)
  end.

(** ['/' in s] *)
Fixpoint contains_sep (s : string) : bool :=
  match s with
  | EmptyString => false
  | String c r => is_sep c || contains_sep r
  end.

End pystr.

(** ** [os.path], POSIX flavour *)

Module posixpath.
Import pystr.

Definition isabs (s : string) : bool := startswith_sep s.

(** One round of the loop of [join]: [path] so far, next component [b]. *)
Definition join_step (path b : string) : string :=
  if startswith_sep b then b
  else if (String.eqb path "" || endswith_sep path)%bool then path ++ b
  else path ++ "/" ++ b.

(** [join(a, *p)] *)
Definition join (a : string) (p : list string) : string :=
  fold_left join_step p a.

(** [dirname(p)] *)
Definition dirname (p : string) : string :=
  let i := rfind_sep p + 1 in
  let head := slice_to p i in
  if (negb (String.eqb head "") && negb (all_sep head))%bool
  then rstrip_sep head
  else head.

(** The body of the loop of [normpath] over the components. *)
Definition norm_step (initial_slashes : nat) (new_comps : list string)
    (comp : string) : list string :=
  if (String.eqb comp "" || String.eqb comp ".")%bool then new_comps
  else if (negb (String.eqb comp "..")
           || (Nat.eqb initial_slashes 0 && Nat.eqb (length new_comps) 0)
           || (negb (Nat.eqb (length new_comps) 0)
               && String.eqb (List.last new_comps "") ".."))%bool
  then new_comps ++ [comp]
  else removelast new_comps.

(** [normpath(path)] *)
Definition normpath (path : string) : string :=
  if String.eqb path "" then "."
  else
    let initial_slashes :=
      if startswith_sep path then
        if (String.prefix "//" path && negb (String.prefix "///" path))%bool
        then 2%nat else 1%nat
      else 0%nat in
    let comps := fold_left (norm_step initial_slashes) (split_sep path) [] in
    let path' := seps initial_slashes ++ String.concat "/" comps in
    if String.eqb path' "" then "." else path'.

(** A component as [normpath] leaves them in an absolute path: no slash
    inside, and none of the three names its loop treats apart. *)
Definition plain (comp : string) : Prop :=
  contains_sep comp = false /\ comp <> "" /\ comp <> "." /\ comp <> "..".

End posixpath.


(** ** The interpreter: outcomes, the operating environment, effects *)

Module py.

(** The two exceptions that leave the launcher: [SystemExit], raised by
    [sys.exit], and [OSError], raised by [subprocess.Popen] when the
    operating system refuses to create the process.  Neither is caught
    anywhere in the script. *)
Inductive exn : Type :=
| SystemExit (code : Z)
| OSError.

(** How a computation ends: it returns, it raises, or it stays blocked in
    a system call for ever ([Popen.wait] on a child that never exits). *)
Inductive outcome (A : Type) : Type :=
| Return (a : A)
| Raise (e : exn)
| Blocked.
Arguments Return {A} a.
Arguments Raise {A} e.
Arguments Blocked {A}.

Inductive stream : Type := stdout | stderr.

(** What the child does in one invocation, as a function of the environment
    block it is started with: [Some rc] when it terminates and
    [Popen.wait] reports [rc] (its exit code, or minus the number of the
    signal that killed it), [None] when it never terminates.  Its argument
    vector is always the bare executable path.  Whatever else a child
    depends on, the working directory it inherits and the files it reads
    among them, belongs to the invocation: two invocations that differ in
    working directory or in file system may hold different programs at the
    same path. *)
Definition program : Type := gmap string string -> option Z.

(** What can sit at a path: a directory, or a regular file which the
    operating system either can execute ([Some]) or cannot ([None]). *)
Inductive node : Type :=
| Directory
| RegularFile (image : option program).

(** One invocation as the launcher sees it. *)
Record world : Type := World {
  w_file : string;                    (* [__file__] of the module *)
  w_cwd : string;                     (* [os.getcwd()] *)
  w_argv : list string;               (* [sys.argv] *)
  w_environ : gmap string string;     (* [os.environ] at start-up *)
  w_fs : gmap string node;            (* the file system *)
}.

(** A child process object, [subprocess.Popen]. *)
Record Popen_handle : Type := Handle {
  h_args : string;
  h_env : gmap string string;
  h_returncode : option Z;
}.

(** The library calls the launcher makes, with arguments and results. *)
Inductive call : Type :=
| c_abspath (path result : string)
| c_exists (path : string) (result : bool)
| c_write (file : stream) (text : string)
| c_exit (code : Z)
| c_Popen (args : string) (env : gmap string string) (started : bool)
| c_wait (returncode : option Z)
| c_environ_update.

(** A call logged under the line of the script it was made from. *)
Record event : Type := At { lineno : nat; op : call }.

(** The mutable part: the [os.environ] mapping and the log. *)
Record state : Type := State {
  environ : gmap string string;
  trace : list event;
}.

Definition M (A : Type) : Type := world -> state -> outcome A * state.

Definition ret {A} (a : A) : M A := fun _ s => (Return a, s).

Definition bind {A B} (m : M A) (k : A -> M B) : M B :=
  fun w s =>
    match m w s with
    | (Return a, s') => k a w s'
    | (Raise e, s') => (Raise e, s')
    | (Blocked, s') => (Blocked, s')
    end.

Definition log (l : nat) (c : call) (s : state) : state :=
  {| environ := environ s; trace := trace s ++ [At l c] |}.

(** Reading the module global [__file__]. *)
Definition __file__ : M string := fun w s => (Return (w_file w), s).

(** [print(text)] at line [l]: the text and a newline go to [sys.stdout]. *)
Definition print (l : nat) (text : string) : M unit :=
  fun _ s => (Return tt, log l (c_write stdout (text ++ String "010" "")) s).

End py.

Declare Scope py_scope.
Delimit Scope py_scope with py.
Notation "x <- c ;; k" := (py.bind c (fun x => k))
  (at level 100, c at next level, right associativity) : py_scope.
Notation "c ;; k" := (py.bind c (fun _ => k))
  (at level 100, right associativity) : py_scope.

(** ** The modules the script imports *)

Module os.

Module path.

(** [os.path] is [posixpath] or [ntpath], by platform.  The launcher is
    written against the four string functions below. *)
Class flavour : Type := Flavour {
  isabs : string -> bool;
  join : string -> list string -> string;
  dirname : string -> string;
  normpath : string -> string;
}.

(** The pure part of [abspath(path)], given [os.getcwd()]. *)
Definition resolve `{flavour} (cwd path : string) : string :=
  normpath (if isabs path then path else join cwd [path]).

(** [os.path.abspath(path)] at line [l]. *)
Definition abspath `{flavour} (l : nat) (path : string) : py.M string :=
  fun w s =>
    let r := resolve (py.w_cwd w) path in
    (py.Return r, py.log l (py.c_abspath path r) s).

(** [os.path.exists(path)] at line [l]: true for whatever sits at
    [path], file or directory. *)
Definition exists_ (l : nat) (path : string) : py.M bool :=
  fun w s =>
    let r := match py.w_fs w !! path with
             | Some _ => true
             | None => false
             end in
    (py.Return r, py.log l (py.c_exists path r) s).

#[global] Instance posix : flavour :=
  {| isabs := posixpath.isabs;
     join := posixpath.join;
     dirname := posixpath.dirname;
     normpath := posixpath.normpath |}.

End path.

(** Evaluating the expression [os.environ]. *)
Definition environ : py.M (gmap string string) :=
  fun _ s => (py.Return (py.environ s), s).

(** [os.environ.update(other)] at line [l]: the entries of [other] win. *)
Definition environ_update (l : nat) (other : gmap string string)
    : py.M unit :=
  fun _ s =>
    (py.Return tt,
     py.log l py.c_environ_update
       {| py.environ := other ∪ py.environ s; py.trace := py.trace s |}).

End os.

Module sys.

(** [sys.exit(code)] at line [l] raises [SystemExit(code)]. *)
Definition exit (l : nat) (code : Z) : py.M unit :=
  fun _ s => (py.Raise (py.SystemExit code), py.log l (py.c_exit code) s).

End sys.

Module subprocess.

(** [subprocess.Popen(args, env=env)] at line [l], [args] a single path:
    the child is created when an executable file sits at [args];
    otherwise process creation fails and [OSError] is raised. *)
Definition Popen (l : nat) (args : string) (env : gmap string string)
    : py.M py.Popen_handle :=
  fun w s =>
    match py.w_fs w !! args with
    | Some (py.RegularFile (Some prog)) =>
        (py.Return (py.Handle args env (prog env)),
         py.log l (py.c_Popen args env true) s)
    | _ => (py.Raise py.OSError, py.log l (py.c_Popen args env false) s)
    end.

(** [process.wait()] at line [l]. *)
Definition wait (l : nat) (process : py.Popen_handle) : py.M Z :=
  fun _ s =>
    match py.h_returncode process with
    | Some rc => (py.Return rc, py.log l (py.c_wait (Some rc)) s)
    | None => (py.Blocked, py.log l (py.c_wait None) s)
    end.

End subprocess.

(** ** The script *)

Module importer_launcher.
Section Script.
Context `{os.path.flavour}.
Local Open Scope py_scope.

(** Lines 12-13, the two assignments, as functions of [__file__] and the
    working directory. *)
Definition script_dir_of (cwd file : string) : string :=
  os.path.dirname (os.path.resolve cwd file).

Definition exe_path_of (cwd file : string) : string :=
  os.path.join (script_dir_of cwd file) ["bin"; "UltralibrarianImporter.exe"].

(** [def launch_importer():], lines 6-26. *)
Definition launch_importer : py.M unit :=
  file <- py.__file__ ;;
  abs <- os.path.abspath 12 file ;;
  let script_dir := os.path.dirname abs in
  let exe_path :=
    os.path.join script_dir ["bin"; "UltralibrarianImporter.exe"] in
  found <- os.path.exists_ 16 exe_path ;;
  (if negb found then
     py.print 17 ("Error: Executable not found at " ++ exe_path) ;;
     sys.exit 18 1
   else py.ret tt) ;;
  env <- os.environ ;;
  process <- subprocess.Popen 21 exe_path env ;;
  return_code <- subprocess.wait 24 process ;;
  sys.exit 25 return_code ;;
  other <- os.environ ;;
  os.environ_update 26 other.


(** The module body: the imports and the [def] have no effect of their
    own; line 28 calls [launch_importer()] and the module ends. *)
Definition module_body : py.M unit :=
  launch_importer ;; py.ret tt.

End Script.
End importer_launcher.

(** ** Running the script and observing it *)

Module observe.

(** The state the interpreter hands to the module: [os.environ] holds the
    process environment and nothing has been logged. *)
Definition boot (w : py.world) : py.state :=
  {| py.environ := py.w_environ w; py.trace := [] |}.

(** The exit code the interpreter ends with when the script is its main
    program, as a Python integer: the code of an uncaught [SystemExit], 1
    for any other uncaught exception, 0 when the module body runs to its
    end; none while it is blocked.  What the parent process reads is
    [reported_status] below. *)
Definition exit_status {A : Type} (o : py.outcome A) : option Z :=
  match o with
  | py.Return _ => Some 0
  | py.Raise (py.SystemExit code) => Some code
  | py.Raise py.OSError => Some 1
  | py.Blocked => None
  end.

(** What a POSIX parent reads after the interpreter has left with exit
    code [code]: CPython converts the integer to a C [long], taking -1
    when it does not fit, and [exit] keeps the low eight bits. *)
Definition posix_status (code : Z) : Z :=
  if ((- 2 ^ 63 <=? code) && (code <? 2 ^ 63))%bool
  then code mod 256
  else 255.

(** The exit status of the launcher process as its parent sees it. *)
Definition reported_status {A : Type} (o : py.outcome A) : option Z :=
  match exit_status o with
  | Some code => Some (posix_status code)
  | None => None
  end.

(** What was written, in order, and to which stream. *)
Fixpoint writes (tr : list py.event) : list (py.stream * string) :=
  match tr with
  | [] => []
  | py.At _ (py.c_write f text) :: r => (f, text) :: writes r
  | _ :: r => writes r
  end.

(** Every call of [Popen]: path, environment, and whether a child was
    created. *)
Fixpoint popens (tr : list py.event)
    : list (string * gmap string string * bool) :=
  match tr with
  | [] => []
  | py.At _ (py.c_Popen args env started) :: r =>
      (args, env, started) :: popens r
  | _ :: r => popens r
  end.

(** The children created. *)
Definition spawned (tr : list py.event)
    : list (string * gmap string string * bool) :=
  List.filter (fun c => snd c) (popens tr).

(** Every call of [wait], with what it returned. *)
Fixpoint waits (tr : list py.event) : list (option Z) :=
  match tr with
  | [] => []
  | py.At _ (py.c_wait rc) :: r => rc :: waits r
  | _ :: r => waits r
  end.

(** The paths handed to [os.path.exists]. *)
Fixpoint checked (tr : list py.event) : list string :=
  match tr with
  | [] => []
  | py.At _ (py.c_exists path _) :: r => path :: checked r
  | _ :: r => checked r
  end.

(** The lines executed, in order. *)
Definition lines (tr : list py.event) : list nat := map py.lineno tr.

(** [needle] occurs in [text]. *)
Definition occurs_in (needle text : string) : Prop :=
  exists before after : string, text = before ++ needle ++ after.

(** The same invocation with another argument vector, and with another
    working directory. *)
Definition with_argv (argv : list string) (w : py.world) : py.world :=
  {| py.w_file := py.w_file w; py.w_cwd := py.w_cwd w; py.w_argv := argv;
     py.w_environ := py.w_environ w; py.w_fs := py.w_fs w |}.

Definition with_cwd (cwd : string) (w : py.world) : py.world :=
  {| py.w_file := py.w_file w; py.w_cwd := cwd; py.w_argv := py.w_argv w;
     py.w_environ := py.w_environ w; py.w_fs := py.w_fs w |}.

(** The same invocation over another file system, and with another
    environment. *)
Definition with_fs (fs : gmap string py.node) (w : py.world) : py.world :=
  {| py.w_file := py.w_file w; py.w_cwd := py.w_cwd w;
     py.w_argv := py.w_argv w; py.w_environ := py.w_environ w;
     py.w_fs := fs |}.

Definition with_environ (env : gmap string string) (w : py.world)
    : py.world :=
  {| py.w_file := py.w_file w; py.w_cwd := py.w_cwd w;
     py.w_argv := py.w_argv w; py.w_environ := env; py.w_fs := py.w_fs w |}.

End observe.

(** ** The state machine of the design

    Start, ResolvePath, CheckExists, then Fail (terminal) or Launch, Wait,
    Propagate (terminal). *)

Module machine.

Inductive phase : Type :=
| Start | ResolvePath | CheckExists | Fail | Launch | Wait | Propagate.

Definition phase_eqb (p q : phase) : bool :=
  match p, q with
  | Start, Start | ResolvePath, ResolvePath | CheckExists, CheckExists
  | Fail, Fail | Launch, Launch | Wait, Wait | Propagate, Propagate => true
  | _, _ => false
  end.

(** The arrows of the machine. *)
Definition arrow (p q : phase) : bool :=
  match p, q with
  | Start, ResolvePath
  | ResolvePath, CheckExists
  | CheckExists, Fail
  | CheckExists, Launch
  | Launch, Wait
  | Wait, Propagate => true
  | _, _ => false
  end.

(** The phase a line of the script belongs to: 12-13 resolve the path,
    16 checks it, 17-18 report and leave, 21 launches, 24 waits, 25
    propagates.  Line 26 follows the terminal phase and has none. *)
Definition phase_of_line (l : nat) : option phase :=
  match l with
  | 12%nat | 13%nat => Some ResolvePath
  | 16%nat => Some CheckExists
  | 17%nat | 18%nat => Some Fail
  | 21%nat => Some Launch
  | 24%nat => Some Wait
  | 25%nat => Some Propagate
  | _ => None
  end.

(** The phases entered while executing [ls], starting in [cur]: a line of
    the current phase enters nothing, a line without phase is off the
    machine and is kept as [None]. *)
Fixpoint entered (cur : phase) (ls : list nat) : list (option phase) :=
  match ls with
  | [] => []
  | l :: r =>
      match phase_of_line l with
      | Some p =>
          if phase_eqb p cur then entered cur r
          else Some p :: entered p r
      | None => None :: entered cur r
      end
  end.

(** A list of phases follows the arrows from [cur] and never leaves the
    machine. *)
Fixpoint follows (cur : phase) (ps : list (option phase)) : bool :=
  match ps with
  | [] => true
  | Some p :: r => arrow cur p && follows p r
  | None :: _ => false
  end.

End machine.

(** ** The launcher contract: definitions *)

Section Contract.
Context `{os.path.flavour}.
Local Open Scope py_scope.

(** The path lines 12-13 compute in invocation [w]. *)
Definition exe_path (w : py.world) : string :=
  importer_launcher.exe_path_of (py.w_cwd w) (py.w_file w).

(** Where the running script is: [os.path.abspath(__file__)]. *)
Definition script_location (w : py.world) : string :=
  os.path.resolve (py.w_cwd w) (py.w_file w).

(** The text [print] sends to the stream at line 17. *)
Definition diagnostic (w : py.world) : string :=
  "Error: Executable not found at " ++ exe_path w ++ String "010" "".

(** Executing the script from a fresh interpreter. *)
Definition run (w : py.world) : py.outcome unit * py.state :=
  importer_launcher.module_body w (observe.boot w).

Definition result (w : py.world) : py.outcome unit := fst (run w).

Definition events (w : py.world) : list py.event := py.trace (snd (run w)).

Definition final_environ (w : py.world) : gmap string string :=
  py.environ (snd (run w)).

(** The phases one run goes through. *)
Definition visited (w : py.world) : list (option machine.phase) :=
  machine.entered machine.Start (observe.lines (events w)).

(** The launcher with the statement of line 26 dropped, as the design
    notes propose: [launch_importer] up to and including line 25. *)
Definition launch_importer_without_update : py.M unit :=
  file <- py.__file__ ;;
  abs <- os.path.abspath 12 file ;;
  let script_dir := os.path.dirname abs in
  let exe_path :=
    os.path.join script_dir ["bin"; "UltralibrarianImporter.exe"] in
  found <- os.path.exists_ 16 exe_path ;;
  (if negb found then
     py.print 17 ("Error: Executable not found at " ++ exe_path) ;;
     sys.exit 18 1
   else py.ret tt) ;;
  env <- os.environ ;;
  process <- subprocess.Popen 21 exe_path env ;;
  return_code <- subprocess.wait 24 process ;;
  sys.exit 25 return_code.

(** Executing the script with that launcher in place of the original. *)
Definition run_without_update (w : py.world) : py.outcome unit * py.state :=
  (launch_importer_without_update ;; py.ret tt) w (observe.boot w).

(** The reading of the existence check that asks for a regular file:
    whenever no regular file sits at the path, the diagnostic is written,
    the status is 1 and nothing is launched. *)
Definition rejects_non_files (w : py.world) : Prop :=
  (forall image, py.w_fs w !! exe_path w <> Some (py.RegularFile image)) ->
  observe.writes (events w) <> []
  /\ observe.exit_status (result w) = Some 1
  /\ observe.popens (events w) = [].

(** The reading of the module's end that knows two ways out only:
    [SystemExit(1)] with nothing at the path, or [SystemExit] with the
    code of a child that was started and waited for. *)
Definition ends_by_exit (w : py.world) : Prop :=
  (py.w_fs w !! exe_path w = None
   /\ result w = py.Raise (py.SystemExit 1))
  \/ (exists rc : Z,
        observe.spawned (events w) <> []
        /\ observe.waits (events w) = [Some rc]
        /\ result w = py.Raise (py.SystemExit rc)).

(** What sits at the executable path decides which of the four it is. *)
Inductive run_shape (w : py.world) : Prop :=
| shape_missing :
    py.w_fs w !! exe_path w = None -> run_shape w
| shape_refused n :
    py.w_fs w !! exe_path w = Some n ->
    (forall prog, n <> py.RegularFile (Some prog)) -> run_shape w
| shape_blocked prog :
    py.w_fs w !! exe_path w = Some (py.RegularFile (Some prog)) ->
    prog (py.w_environ w) = None -> run_shape w
| shape_exited prog rc :
    py.w_fs w !! exe_path w = Some (py.RegularFile (Some prog)) ->
    prog (py.w_environ w) = Some rc -> run_shape w.

(** The reading of the passthrough that takes whatever [wait] returned
    for the exit status of the launcher process. *)
Definition passes_code_through (w : py.world) : Prop :=
  forall (prog : py.program) (N : Z),
    py.w_fs w !! exe_path w = Some (py.RegularFile (Some prog)) ->
    prog (py.w_environ w) = Some N ->
    observe.reported_status (result w) = Some N.

(** What the launcher can tell about the executable path: nothing is
    there, something is there that [Popen] can start, or something that it
    cannot. *)
Inductive standing : Type := absent | startable | unstartable.

Definition standing_at (w : py.world) : standing :=
  match py.w_fs w !! exe_path w with
  | None => absent
  | Some (py.RegularFile (Some _)) => startable
  | Some _ => unstartable
  end.

(** What [wait] has to report in this invocation, when a child is
    started and terminates. *)
Definition child_return (w : py.world) : option Z :=
  match py.w_fs w !! exe_path w with
  | Some (py.RegularFile (Some prog)) => prog (py.w_environ w)
  | _ => None
  end.

(** [true] when the computation handed control back. *)
Definition returned {A : Type} (o : py.outcome A) : bool :=
  match o with
  | py.Return _ => true
  | _ => false
  end.

(** How the import of the module ends, read off the file system and the
    child alone. *)
Definition expected_end (w : py.world) : py.outcome unit :=
  match py.w_fs w !! exe_path w with
  | None => py.Raise (py.SystemExit 1)
  | Some (py.RegularFile (Some prog)) =>
      match prog (py.w_environ w) with
      | Some rc => py.Raise (py.SystemExit rc)
      | None => py.Blocked
      end
  | Some _ => py.Raise py.OSError
  end.

End Contract.

(** ** Sample invocations, POSIX flavour *)

Module sample.

Definition exe : string :=
  "/opt/kicad/plugins/ultra/bin/UltralibrarianImporter.exe".

Definition env : gmap string string :=
  {[ "KICAD_USER" := "me" ; "LANG" := "C" ]}.

(** A child that exits with [rc] whatever its environment. *)
Definition exits_with (rc : Z) : py.program := fun _ => Some rc.

(** A child that exits 0 when it sees [KICAD_USER=me], and 3 otherwise. *)
Definition needs_user : py.program :=
  fun e => match e !! "KICAD_USER" with
           | Some v => if String.eqb v "me" then Some 0 else Some 3
           | None => Some 3
           end.

Definition invoked (fs : gmap string py.node) : py.world :=
  {| py.w_file := "/opt/kicad/plugins/ultra/importer_launcher.py";
     py.w_cwd := "/home/me/boards";
     py.w_argv := ["importer_launcher.py"];
     py.w_environ := env;
     py.w_fs := fs |}.

Definition installed (rc : Z) : py.world :=
  invoked {[ exe := py.RegularFile (Some (exits_with rc)) ]}.

Definition installed_checking_env : py.world :=
  invoked {[ exe := py.RegularFile (Some needs_user) ]}.

Definition missing : py.world := invoked ∅.

Definition directory_in_place : py.world := invoked {[ exe := py.Directory ]}.

(** A regular file the operating system cannot execute. *)
Definition not_executable : py.world :=
  invoked {[ exe := py.RegularFile None ]}.

(** A child killed by signal [signal]: [wait] returns its negation. *)
Definition killed_by (signal : Z) : py.world :=
  invoked {[ exe := py.RegularFile (Some (fun _ => Some (- signal))) ]}.

(** The importer started from another working directory, where it fails:
    the same file, another behaviour of the child. *)
Definition started_elsewhere : py.world :=
  {| py.w_file := "/opt/kicad/plugins/ultra/importer_launcher.py";
     py.w_cwd := "/srv/unrelated";
     py.w_argv := ["importer_launcher.py"];
     py.w_environ := env;
     py.w_fs := {[ exe := py.RegularFile (Some (exits_with 3)) ]} |}.

(** A child that never exits. *)
Definition hanging : py.world :=
  invoked {[ exe := py.RegularFile (Some (fun _ => None)) ]}.

(** The script named relative to the working directory. *)
Definition relative : py.world :=
  {| py.w_file := "../plugins/ultra/importer_launcher.py";
     py.w_cwd := "/opt/kicad/bin";
     py.w_argv := [];
     py.w_environ := env;
     py.w_fs := {[ exe := py.RegularFile (Some (exits_with 42)) ]} |}.

End sample.

(** ** The effect monad: how a raise cuts the rest short *)

Section Monad.
Local Open Scope py_scope.

Lemma bind_ret_l {A B} (a : A) (k : A -> py.M B) w s :
  py.bind (py.ret a) k w s = k a w s.
Proof. reflexivity. Qed.

Lemma bind_assoc {A B C} (m : py.M A) (k : A -> py.M B) (k' : B -> py.M C)
    w s :
  py.bind (py.bind m k) k' w s
  = py.bind m (fun a => py.bind (k a) k') w s.
Proof.
  unfold py.bind. destruct (m w s) as [[a | e |] s1]; try reflexivity.
Qed.

(** Two programs that begin alike and continue alike agree. *)
Lemma bind_same_head {A B} (m m' : py.M A) (k : A -> py.M B) w s :
  m w s = m' w s -> py.bind m k w s = py.bind m' k w s.
Proof. unfold py.bind. intros Hm. rewrite Hm. reflexivity. Qed.

(** Nothing placed after [sys.exit] runs. *)
Lemma exit_cuts {B} l code (k : unit -> py.M B) w s :
  py.bind (sys.exit l code) k w s
  = (py.Raise (py.SystemExit code), py.log l (py.c_exit code) s).
Proof. reflexivity. Qed.

(** Two programs with the same first part agree when what follows
    agrees. *)
Lemma bind_ext {A B} (m : py.M A) (k k' : A -> py.M B) w s :
  (forall a w' s', k a w' s' = k' a w' s') ->
  py.bind m k w s = py.bind m k' w s.
Proof.
  intros Hk. unfold py.bind.
  destruct (m w s) as [[a | e |] s1]; try reflexivity. apply Hk.
Qed.

End Monad.

(** ** The four ways a run can go *)

Section Runs.
Context `{os.path.flavour}.

Lemma exe_path_unfold w :
  exe_path w
  = os.path.join (os.path.dirname (script_location w))
      ["bin"; "UltralibrarianImporter.exe"].
Proof. reflexivity. Qed.

(** Unfolds one run down to the look-up at the executable path. *)
Ltac step_run w :=
  unfold run, importer_launcher.module_body,
    importer_launcher.launch_importer, py.bind, py.__file__,
    os.path.abspath, os.path.exists_, os.environ, subprocess.Popen;
  cbn; fold (script_location w).

(** Nothing at the path: lines 12, 16, 17, 18. *)
Lemma run_missing w :
  py.w_fs w !! exe_path w = None ->
  run w =
    (py.Raise (py.SystemExit 1),
     {| py.environ := py.w_environ w;
        py.trace :=
          [ py.At 12 (py.c_abspath (py.w_file w) (script_location w));
            py.At 16 (py.c_exists (exe_path w) false);
            py.At 17 (py.c_write py.stdout (diagnostic w));
            py.At 18 (py.c_exit 1) ] |}).
Proof.
  intros Hfs. rewrite exe_path_unfold in Hfs.
  step_run w. rewrite Hfs. reflexivity.
Qed.

(** Something at the path that cannot be started: lines 12, 16, 21. *)
Lemma run_refused w n :
  py.w_fs w !! exe_path w = Some n ->
  (forall prog, n <> py.RegularFile (Some prog)) ->
  run w =
    (py.Raise py.OSError,
     {| py.environ := py.w_environ w;
        py.trace :=
          [ py.At 12 (py.c_abspath (py.w_file w) (script_location w));
            py.At 16 (py.c_exists (exe_path w) true);
            py.At 21 (py.c_Popen (exe_path w) (py.w_environ w) false) ] |}).
Proof.
  intros Hfs Hn. rewrite exe_path_unfold in Hfs.
  step_run w. rewrite Hfs. cbn.
  destruct n as [| [prog |]]; try reflexivity.
  exfalso. apply (Hn prog). reflexivity.
Qed.

(** A child that never exits: lines 12, 16, 21, 24, and no further. *)
Lemma run_blocked w prog :
  py.w_fs w !! exe_path w = Some (py.RegularFile (Some prog)) ->
  prog (py.w_environ w) = None ->
  run w =
    (py.Blocked,
     {| py.environ := py.w_environ w;
        py.trace :=
          [ py.At 12 (py.c_abspath (py.w_file w) (script_location w));
            py.At 16 (py.c_exists (exe_path w) true);
            py.At 21 (py.c_Popen (exe_path w) (py.w_environ w) true);
            py.At 24 (py.c_wait None) ] |}).
Proof.
  intros Hfs Hrc. rewrite exe_path_unfold in Hfs.
  step_run w. rewrite Hfs. cbn.
  unfold subprocess.wait. cbn. rewrite Hrc. reflexivity.
Qed.

(** A child that exits: lines 12, 16, 21, 24, 25. *)
Lemma run_exited w prog rc :
  py.w_fs w !! exe_path w = Some (py.RegularFile (Some prog)) ->
  prog (py.w_environ w) = Some rc ->
  run w =
    (py.Raise (py.SystemExit rc),
     {| py.environ := py.w_environ w;
        py.trace :=
          [ py.At 12 (py.c_abspath (py.w_file w) (script_location w));
            py.At 16 (py.c_exists (exe_path w) true);
            py.At 21 (py.c_Popen (exe_path w) (py.w_environ w) true);
            py.At 24 (py.c_wait (Some rc));
            py.At 25 (py.c_exit rc) ] |}).
Proof.
  intros Hfs Hrc. rewrite exe_path_unfold in Hfs.
  step_run w. rewrite Hfs. cbn.
  unfold subprocess.wait. cbn. rewrite Hrc. reflexivity.
Qed.

Lemma run_cases w : run_shape w.
Proof.
  destruct (py.w_fs w !! exe_path w) as [[| [prog |]] |] eqn:Hfs.
  - apply (shape_refused w py.Directory); [assumption | discriminate].
  - destruct (prog (py.w_environ w)) as [rc |] eqn:Hrc.
    + apply (shape_exited w prog rc); assumption.
    + apply (shape_blocked w prog); assumption.
  - apply (shape_refused w (py.RegularFile None));
      [assumption | discriminate].
  - apply shape_missing; assumption.
Qed.

End Runs.

(** ** POSIX flavour: the resolved path is absolute and has one shape *)

Section Posix.
Import pystr.

Lemma append_nil (b : string) : "" ++ b = b.
Proof. reflexivity. Qed.

Lemma append_cons (c : ascii) (a b : string) :
  String c a ++ b = String c (a ++ b).
Proof. reflexivity. Qed.

Lemma append_assoc (a b c : string) : a ++ b ++ c = (a ++ b) ++ c.
Proof.
  induction a as [| x a IH]; [reflexivity |].
  rewrite !append_cons, IH. reflexivity.
Qed.

Lemma startswith_sep_app (a b : string) :
  startswith_sep a = true -> startswith_sep (a ++ b) = true.
Proof.
  destruct a as [| c a]; [discriminate |].
  rewrite append_cons. trivial.
Qed.

Lemma endswith_sep_app (a b : string) :
  b <> "" -> endswith_sep (a ++ b) = endswith_sep b.
Proof.
  intros Hb. induction a as [| c a IH]; [reflexivity |].
  rewrite append_cons. cbn [endswith_sep].
  destruct (a ++ b) as [| c' r] eqn:Hab.
  - destruct a as [| c0 a0].
    + rewrite append_nil in Hab. congruence.
    + rewrite append_cons in Hab. discriminate Hab.
  - exact IH.
Qed.

Lemma rstrip_sep_empty (s : string) :
  rstrip_sep s = "" -> all_sep s = true.
Proof.
  induction s as [| c r IH]; [reflexivity |].
  cbn [rstrip_sep all_sep].
  destruct (rstrip_sep r) as [| c' r'].
  - destruct (is_sep c); [intros _; rewrite IH; reflexivity | discriminate].
  - discriminate.
Qed.

Lemma rstrip_sep_not_endswith (s : string) :
  endswith_sep (rstrip_sep s) = false.
Proof.
  induction s as [| c r IH]; [reflexivity |].
  cbn [rstrip_sep].
  destruct (rstrip_sep r) as [| c' r'] eqn:Hr.
  - destruct (is_sep c) eqn:Hc; [reflexivity | cbn; exact Hc].
  - exact IH.
Qed.

Lemma rstrip_sep_keeps_head (s : string) :
  startswith_sep s = true -> all_sep s = false ->
  startswith_sep (rstrip_sep s) = true.
Proof.
  destruct s as [| c r]; [discriminate |].
  cbn [startswith_sep all_sep rstrip_sep]. intros Hc Hall.
  destruct (rstrip_sep r) as [| c' r'] eqn:Hr.
  - apply rstrip_sep_empty in Hr. rewrite Hc, Hr in Hall. discriminate Hall.
  - exact Hc.
Qed.

Lemma rfind_sep_from_ge (s : string) (i last : Z) :
  last <= i -> last <= rfind_sep_from s i last.
Proof.
  revert i last. induction s as [| c r IH]; intros i last Hle.
  - cbn. lia.
  - cbn [rfind_sep_from]. destruct (is_sep c).
    + specialize (IH (i + 1) i). lia.
    + specialize (IH (i + 1) last). lia.
Qed.

Lemma slice_to_head (c : ascii) (r : string) (i : Z) :
  1 <= i -> exists r', slice_to (String c r) i = String c r'.
Proof.
  intros Hi. unfold slice_to.
  destruct (Z.to_nat i) as [| n] eqn:Hn; [lia |].
  cbn. eauto.
Qed.

Lemma normpath_isabs (p : string) :
  posixpath.isabs p = true -> posixpath.isabs (posixpath.normpath p) = true.
Proof.
  unfold posixpath.isabs, posixpath.normpath. intros Habs.
  destruct p as [| c r]; [discriminate |].
  rewrite Habs. cbn [String.eqb].
  destruct (String.prefix "//" (String c r) && negb (String.prefix "///" (String c r)))%bool;
    reflexivity.
Qed.

Lemma join_step_isabs (a b : string) :
  posixpath.isabs a = true -> posixpath.isabs (posixpath.join_step a b) = true.
Proof.
  unfold posixpath.isabs, posixpath.join_step. intros Ha.
  destruct (startswith_sep b) eqn:Hb; [exact Hb |].
  destruct (String.eqb a "" || endswith_sep a)%bool;
    apply startswith_sep_app; exact Ha.
Qed.

Lemma resolve_isabs_posix (cwd file : string) :
  posixpath.isabs cwd = true ->
  posixpath.isabs (os.path.resolve (H := os.path.posix) cwd file) = true.
Proof.
  intros Hcwd. unfold os.path.resolve. cbn.
  apply normpath_isabs.
  destruct (posixpath.isabs file) eqn:Hf; [exact Hf |].
  apply join_step_isabs. exact Hcwd.
Qed.

Lemma dirname_isabs (p : string) :
  posixpath.isabs p = true -> posixpath.isabs (posixpath.dirname p) = true.
Proof.
  unfold posixpath.isabs, posixpath.dirname. intros Hp.
  destruct p as [| c r]; [discriminate |].
  cbn in Hp.
  assert (Hi : 1 <= rfind_sep (String c r) + 1).
  { unfold rfind_sep. cbn [rfind_sep_from]. rewrite Hp.
    pose proof (rfind_sep_from_ge r (0 + 1) 0). lia. }
  destruct (slice_to_head c r _ Hi) as [r' Hhead]. rewrite Hhead.
  cbn [String.eqb negb andb].
  destruct (all_sep (String c r')) eqn:Hall; cbn [negb].
  - exact Hp.
  - apply rstrip_sep_keeps_head; [exact Hp | exact Hall].
Qed.

Lemma dirname_endswith (p : string) :
  endswith_sep (posixpath.dirname p) = true ->
  all_sep (posixpath.dirname p) = true.
Proof.
  unfold posixpath.dirname.
  destruct (slice_to p (rfind_sep p + 1)) as [| c r] eqn:Hhead.
  - reflexivity.
  - cbn [String.eqb negb andb].
    destruct (all_sep (String c r)) eqn:Hall; cbn [negb].
    + intros _. exact Hall.
    + rewrite rstrip_sep_not_endswith. discriminate.
Qed.

Lemma join_step_relative (a b : string) :
  a <> "" -> startswith_sep b = false ->
  posixpath.join_step a b = a ++ (if endswith_sep a then "" else "/") ++ b.
Proof.
  intros Ha Hb. unfold posixpath.join_step. rewrite Hb.
  destruct (String.eqb a "") eqn:Hz.
  - apply String.eqb_eq in Hz. contradiction.
  - cbn [orb]. destruct (endswith_sep a); reflexivity.
Qed.

Lemma append_not_empty (a b : string) : b <> "" -> a ++ b <> "".
Proof.
  intros Hb. destruct a as [| c a].
  - rewrite append_nil. exact Hb.
  - rewrite append_cons. discriminate.
Qed.

Lemma join_bin_exe (d : string) :
  posixpath.isabs d = true ->
  posixpath.join d ["bin"; "UltralibrarianImporter.exe"]
  = d ++ (if endswith_sep d then "" else "/")
      ++ "bin/UltralibrarianImporter.exe".
Proof.
  intros Hd. unfold posixpath.join. cbn [fold_left].
  assert (Hne : d <> "") by (destruct d; [discriminate Hd | discriminate]).
  rewrite (join_step_relative d "bin" Hne eq_refl).
  set (s := if endswith_sep d then "" else "/").
  assert (Hx : d ++ s ++ "bin" = (d ++ s) ++ "bin")
    by apply append_assoc.
  rewrite Hx.
  rewrite join_step_relative;
    [| apply append_not_empty; discriminate | reflexivity].
  rewrite (endswith_sep_app (d ++ s) "bin") by discriminate.
  replace (endswith_sep "bin") with false by reflexivity.
  rewrite <- !append_assoc. reflexivity.
Qed.

(** X9.  With [posixpath] and an absolute working directory, the directory
    of the script is absolute, the resolved path is absolute, and it is that
    directory, a slash unless the directory is a root, and
    [bin/UltralibrarianImporter.exe]. *)
Lemma posix_exe_path_shape (cwd file : string) :
  posixpath.isabs cwd = true ->
  let d := importer_launcher.script_dir_of (H := os.path.posix) cwd file in
  let p := importer_launcher.exe_path_of (H := os.path.posix) cwd file in
  posixpath.isabs d = true
  /\ posixpath.isabs p = true
  /\ p = d ++ (if all_sep d then "" else "/")
           ++ "bin/UltralibrarianImporter.exe".
Proof.
  intros Hcwd d p.
  assert (Hd : posixpath.isabs d = true).
  { apply dirname_isabs, resolve_isabs_posix, Hcwd. }
  assert (Hp : p = d ++ (if endswith_sep d then "" else "/")
                     ++ "bin/UltralibrarianImporter.exe").
  { apply join_bin_exe, Hd. }
  split; [exact Hd | split].
  - rewrite Hp. apply startswith_sep_app, Hd.
  - rewrite Hp. destruct (endswith_sep d) eqn:He.
    + unfold d, importer_launcher.script_dir_of in He |- *. cbn in He |- *.
      rewrite (dirname_endswith _ He). reflexivity.
    + destruct (all_sep d) eqn:Hall; [| reflexivity].
      exfalso. clear Hp p. destruct d as [| c r]; [discriminate |].
      revert c Hd Hall He. induction r as [| c' r IH]; intros c Hd Hall He.
      * cbn in *. congruence.
      * cbn [all_sep] in Hall. apply andb_prop in Hall as [_ Hall].
        apply (IH c'); [| exact Hall | exact He].
        cbn [all_sep] in Hall. apply andb_prop in Hall as [Hc' _]. exact Hc'.
Qed.

End Posix.

(** ** POSIX flavour: [abspath] of an absolute result changes nothing *)

Section PosixNormal.
Import pystr.

Lemma split_sep_no_sep (s : string) :
  Forall (fun c => contains_sep c = false) (split_sep s).
Proof.
  induction s as [| a r IH]; cbn [split_sep].
  - repeat constructor.
  - destruct (is_sep a) eqn:Ha.
    + constructor; [reflexivity | exact IH].
    + destruct (split_sep r) as [| h t].
      * repeat constructor. cbn. rewrite Ha. reflexivity.
      * inversion IH as [| ? ? Hh Ht]; subst.
        constructor; [| exact Ht]. cbn. rewrite Ha, Hh. reflexivity.
Qed.

Lemma split_sep_whole (c : string) :
  contains_sep c = false -> split_sep c = [c].
Proof.
  induction c as [| a r IH]; [reflexivity |].
  cbn [contains_sep split_sep]. intros Hc.
  apply orb_false_elim in Hc as [Ha Hr].
  rewrite Ha, (IH Hr). reflexivity.
Qed.

Lemma split_sep_app (a r : string) :
  contains_sep a = false ->
  split_sep (a ++ String "/" r) = a :: split_sep r.
Proof.
  induction a as [| x a IH]; intros Ha.
  - rewrite append_nil. reflexivity.
  - cbn [contains_sep] in Ha. apply orb_false_elim in Ha as [Hx Ha].
    rewrite append_cons. cbn [split_sep]. rewrite Hx, (IH Ha). reflexivity.
Qed.

Lemma concat_cons2 (c c' : string) (cs : list string) :
  String.concat "/" (c :: c' :: cs)
  = c ++ String "/" (String.concat "/" (c' :: cs)).
Proof. reflexivity. Qed.

Lemma split_sep_concat (cs : list string) :
  cs <> [] ->
  Forall (fun c => contains_sep c = false) cs ->
  split_sep (String.concat "/" cs) = cs.
Proof.
  induction cs as [| c cs IH]; [congruence |].
  intros _ Hall. inversion Hall as [| ? ? Hc Hcs]; subst.
  destruct cs as [| c' cs].
  - apply split_sep_whole, Hc.
  - rewrite concat_cons2, (split_sep_app _ _ Hc), IH;
      [reflexivity | discriminate | exact Hcs].
Qed.

Lemma plain_no_sep (cs : list string) :
  Forall posixpath.plain cs -> Forall (fun c => contains_sep c = false) cs.
Proof.
  intros Hall. eapply Forall_impl; [exact Hall |].
  intros c Hc. apply Hc.
Qed.

Lemma norm_step_plain (k : nat) (acc : list string) (c : string) :
  posixpath.plain c -> posixpath.norm_step k acc c = (acc ++ [c])%list.
Proof.
  intros (_ & Hne & Hdot & Hdots). unfold posixpath.norm_step.
  apply String.eqb_neq in Hne, Hdot, Hdots.
  rewrite Hne, Hdot, Hdots. reflexivity.
Qed.

Lemma fold_norm_step_plain (k : nat) (cs acc : list string) :
  Forall posixpath.plain cs ->
  fold_left (posixpath.norm_step k) cs acc = (acc ++ cs)%list.
Proof.
  revert acc. induction cs as [| c cs IH]; intros acc Hall.
  - rewrite app_nil_r. reflexivity.
  - inversion Hall as [| ? ? Hc Hcs]; subst. cbn [fold_left].
    rewrite (norm_step_plain k acc c Hc), (IH _ Hcs), <- app_assoc.
    reflexivity.
Qed.

Lemma Forall_removelast {A} (P : A -> Prop) (l : list A) :
  Forall P l -> Forall P (removelast l).
Proof.
  induction l as [| a l IH]; intros Hall; [constructor |].
  inversion Hall as [| ? ? Ha Hl]; subst. cbn [removelast].
  destruct l as [| b l]; [constructor |].
  constructor; [exact Ha | apply IH, Hl].
Qed.

Lemma last_plain (acc : list string) :
  Forall posixpath.plain acc -> acc <> [] -> List.last acc "" <> "..".
Proof.
  induction acc as [| a acc IH]; [congruence |].
  intros Hall _. inversion Hall as [| ? ? Ha Hacc]; subst.
  destruct acc as [| b acc].
  - cbn. apply Ha.
  - change (List.last (b :: acc) "" <> ".."). apply IH; [exact Hacc | discriminate].
Qed.

Lemma norm_step_keeps_plain (k : nat) (acc : list string) (c : string) :
  k <> 0%nat -> Forall posixpath.plain acc -> contains_sep c = false ->
  Forall posixpath.plain (posixpath.norm_step k acc c).
Proof.
  intros Hk Hacc Hc. unfold posixpath.norm_step.
  destruct (String.eqb c "") eqn:He; [exact Hacc |].
  destruct (String.eqb c ".") eqn:Hd; [exact Hacc |].
  cbn [orb].
  destruct (String.eqb c "..") eqn:Hdd; cbn [negb orb].
  - apply Nat.eqb_neq in Hk. rewrite Hk. cbn [andb orb].
    destruct acc as [| a acc]; [constructor |].
    cbn [length Nat.eqb negb andb].
    destruct (String.eqb (List.last (a :: acc) "") "..") eqn:Hl.
    + apply String.eqb_eq in Hl.
      exfalso. apply (last_plain (a :: acc) Hacc); [discriminate | exact Hl].
    + apply Forall_removelast, Hacc.
  - apply Forall_app. split; [exact Hacc |].
    repeat constructor; try exact Hc; apply String.eqb_neq; assumption.
Qed.

Lemma fold_norm_step_keeps_plain (k : nat) (l acc : list string) :
  k <> 0%nat -> Forall posixpath.plain acc ->
  Forall (fun c => contains_sep c = false) l ->
  Forall posixpath.plain (fold_left (posixpath.norm_step k) l acc).
Proof.
  intros Hk. revert acc. induction l as [| c l IH]; intros acc Hacc Hl.
  - exact Hacc.
  - inversion Hl as [| ? ? Hc Hl']; subst. cbn [fold_left].
    apply IH; [| exact Hl'].
    apply norm_step_keeps_plain; assumption.
Qed.

Lemma prefix_sep (c : string) : String.prefix "/" c = startswith_sep c.
Proof.
  destruct c as [| a c]; [reflexivity |].
  cbn [String.prefix startswith_sep]. unfold is_sep.
  destruct (Ascii.ascii_dec "/" a) as [<- | Hne].
  - destruct c; reflexivity.
  - symmetry. apply Ascii.eqb_neq. congruence.
Qed.

Lemma prefix2_one_slash (c : string) :
  String.prefix "//" (String "/" c) = startswith_sep c.
Proof.
  transitivity (String.prefix "/" c); [reflexivity | apply prefix_sep].
Qed.

Lemma prefix2_two_slashes (c : string) :
  String.prefix "//" (String "/" (String "/" c)) = true.
Proof. destruct c; reflexivity. Qed.

Lemma prefix3_two_slashes (c : string) :
  String.prefix "///" (String "/" (String "/" c)) = startswith_sep c.
Proof.
  transitivity (String.prefix "/" c); [reflexivity | apply prefix_sep].
Qed.

Lemma concat_plain_head (cs : list string) :
  Forall posixpath.plain cs ->
  startswith_sep (String.concat "/" cs) = false.
Proof.
  destruct cs as [| x cs]; [reflexivity |].
  intros Hall. inversion Hall as [| ? ? (Hsep & Hne & _) _]; subst.
  destruct x as [| a x]; [congruence |].
  cbn [contains_sep] in Hsep. apply orb_false_elim in Hsep as [Ha _].
  destruct cs as [| y cs]; [exact Ha |].
  rewrite concat_cons2, append_cons. exact Ha.
Qed.

(** The components [normpath] computes from [seps k ++ '/'.join(cs)]. *)
Lemma comps_of_joined (k : nat) (cs : list string) :
  Forall posixpath.plain cs ->
  fold_left (posixpath.norm_step k) (split_sep (String.concat "/" cs)) []
  = cs.
Proof.
  intros Hall. destruct cs as [| x cs]; [reflexivity |].
  rewrite split_sep_concat;
    [| discriminate | apply plain_no_sep, Hall].
  apply (fold_norm_step_plain k _ [] Hall).
Qed.

(** On an absolute path [normpath] gives one or two slashes and then plain
    components joined by single slashes. *)
Lemma normpath_abs_shape (p : string) :
  posixpath.isabs p = true ->
  exists (k : nat) (cs : list string),
    (k = 1%nat \/ k = 2%nat)
    /\ Forall posixpath.plain cs
    /\ posixpath.normpath p = seps k ++ String.concat "/" cs.
Proof.
  unfold posixpath.isabs. intros Hp.
  destruct p as [| a r]; [discriminate |].
  unfold posixpath.normpath. cbn [String.eqb]. rewrite Hp.
  destruct (String.prefix "//" (String a r)
            && negb (String.prefix "///" (String a r)))%bool.
  - exists 2%nat, (fold_left (posixpath.norm_step 2) (split_sep (String a r)) []).
    split; [auto | split; [| reflexivity]].
    apply fold_norm_step_keeps_plain;
      [discriminate | constructor | apply split_sep_no_sep].
  - exists 1%nat, (fold_left (posixpath.norm_step 1) (split_sep (String a r)) []).
    split; [auto | split; [| reflexivity]].
    apply fold_norm_step_keeps_plain;
      [discriminate | constructor | apply split_sep_no_sep].
Qed.

(** Such a path is left as it is. *)
Lemma normpath_fixed (k : nat) (cs : list string) :
  k = 1%nat \/ k = 2%nat ->
  Forall posixpath.plain cs ->
  posixpath.normpath (seps k ++ String.concat "/" cs)
  = seps k ++ String.concat "/" cs.
Proof.
  intros Hk Hall.
  pose proof (concat_plain_head cs Hall) as Hhead.
  pose proof (comps_of_joined 1 cs Hall) as Hc1.
  pose proof (comps_of_joined 2 cs Hall) as Hc2.
  set (c := String.concat "/" cs) in *.
  destruct Hk as [-> | ->].
  - change (seps 1 ++ c) with (String "/" c).
    unfold posixpath.normpath. cbn [String.eqb startswith_sep].
    replace (is_sep "/") with true by reflexivity.
    rewrite prefix2_one_slash, Hhead. cbn [andb].
    change (split_sep (String "/" c)) with ("" :: split_sep c).
    cbn [fold_left].
    change (posixpath.norm_step 1 [] "") with (@nil string).
    rewrite Hc1. reflexivity.
  - change (seps 2 ++ c) with (String "/" (String "/" c)).
    unfold posixpath.normpath. cbn [String.eqb startswith_sep].
    replace (is_sep "/") with true by reflexivity.
    rewrite prefix2_two_slashes, prefix3_two_slashes, Hhead. cbn [andb negb].
    change (split_sep (String "/" (String "/" c)))
      with ("" :: "" :: split_sep c).
    cbn [fold_left].
    do 2 change (posixpath.norm_step 2 [] "") with (@nil string).
    rewrite Hc2. reflexivity.
Qed.

(** [normpath] on absolute paths is idempotent. *)
Lemma normpath_idempotent (p : string) :
  posixpath.isabs p = true ->
  posixpath.normpath (posixpath.normpath p) = posixpath.normpath p.
Proof.
  intros Hp. destruct (normpath_abs_shape p Hp) as (k & cs & Hk & Hcs & ->).
  apply normpath_fixed; assumption.
Qed.

(** [os.path.abspath] of a path [abspath] has produced gives the same path,
    from every working directory. *)
Lemma resolve_idempotent_posix (cwd cwd' file : string) :
  posixpath.isabs cwd = true ->
  os.path.resolve (H := os.path.posix) cwd'
    (os.path.resolve (H := os.path.posix) cwd file)
  = os.path.resolve (H := os.path.posix) cwd file.
Proof.
  intros Hcwd.
  pose proof (resolve_isabs_posix cwd file Hcwd) as Habs.
  unfold os.path.resolve at 1. cbn [os.path.isabs os.path.posix].
  rewrite Habs. cbn [os.path.normpath os.path.posix].
  unfold os.path.resolve. cbn [os.path.normpath os.path.posix].
  apply normpath_idempotent.
  cbn [os.path.isabs os.path.join os.path.posix].
  destruct (posixpath.isabs file) eqn:Hf; [exact Hf |].
  apply join_step_isabs, Hcwd.
Qed.

(** X10.  On a POSIX host the script named by the location [abspath] gave
    it resolves the same executable, from any working directory: the
    location is absolute, resolving it again returns it unchanged, and the
    executable path computed from it is the one computed before. *)
Theorem X10_posix_resolved_location_is_stable (cwd cwd' file : string) :
  posixpath.isabs cwd = true ->
  let location := os.path.resolve (H := os.path.posix) cwd file in
  posixpath.isabs location = true
  /\ os.path.resolve (H := os.path.posix) cwd' location = location
  /\ importer_launcher.exe_path_of (H := os.path.posix) cwd' location
     = importer_launcher.exe_path_of (H := os.path.posix) cwd file.
Proof.
  intros Hcwd location. subst location.
  pose proof (resolve_idempotent_posix cwd cwd' file Hcwd) as Hidem.
  split; [apply resolve_isabs_posix, Hcwd | split; [exact Hidem |]].
  unfold importer_launcher.exe_path_of, importer_launcher.script_dir_of.
  rewrite Hidem. reflexivity.
Qed.

(** *** [dirname] of a normalized path, and the path of the executable *)

Lemma concat_cons_more (x : string) (xs : list string) :
  xs <> [] ->
  String.concat "/" (x :: xs) = x ++ String "/" (String.concat "/" xs).
Proof. destruct xs; [congruence | reflexivity]. Qed.

Lemma append_sep_assoc (x y r : string) :
  x ++ String "/" (y ++ r) = (x ++ String "/" y) ++ r.
Proof.
  induction x as [| a x IH]; [reflexivity |].
  rewrite !append_cons, IH. reflexivity.
Qed.

Lemma concat_app (a b : list string) :
  a <> [] -> b <> [] ->
  String.concat "/" (a ++ b)
  = String.concat "/" a ++ String "/" (String.concat "/" b).
Proof.
  intros Ha Hb. induction a as [| x a IH]; [congruence |].
  rewrite <- app_comm_cons.
  rewrite concat_cons_more by (destruct a; [exact Hb | discriminate]).
  destruct a as [| y a].
  - reflexivity.
  - rewrite IH by discriminate.
    rewrite (concat_cons_more x (y :: a)) by discriminate.
    apply append_sep_assoc.
Qed.

Lemma no_sep_not_endswith (x : string) :
  contains_sep x = false -> endswith_sep x = false.
Proof.
  induction x as [| a x IH]; [reflexivity |].
  cbn [contains_sep]. intros Hx. apply orb_false_elim in Hx as [Ha Hx].
  destruct x as [| b x]; [exact Ha | exact (IH Hx)].
Qed.

Lemma concat_plain_end (cs : list string) :
  cs <> [] -> Forall posixpath.plain cs ->
  String.concat "/" cs <> ""
  /\ endswith_sep (String.concat "/" cs) = false.
Proof.
  induction cs as [| x cs IH]; [congruence |].
  intros _ Hall. inversion Hall as [| ? ? (Hsep & Hne & _) Hcs]; subst.
  destruct cs as [| y cs].
  - split; [exact Hne | apply no_sep_not_endswith, Hsep].
  - destruct (IH ltac:(discriminate) Hcs) as [Hne' Hend'].
    rewrite concat_cons2. split.
    + apply append_not_empty. discriminate.
    + rewrite endswith_sep_app by discriminate.
      destruct (String.concat "/" (y :: cs)) as [| b r] eqn:Hc;
        [congruence | exact Hend'].
Qed.

Lemma rfind_sep_from_no_sep (b : string) (i last : Z) :
  contains_sep b = false -> rfind_sep_from b i last = last.
Proof.
  revert i last. induction b as [| x b IH]; intros i last Hb;
    [reflexivity |].
  cbn [contains_sep] in Hb. apply orb_false_elim in Hb as [Hx Hb].
  cbn [rfind_sep_from]. rewrite Hx. apply IH, Hb.
Qed.

Lemma rfind_sep_from_app (a b : string) (i last : Z) :
  contains_sep b = false ->
  rfind_sep_from (a ++ String "/" b) i last
  = i + Z.of_nat (String.length a).
Proof.
  intros Hb. revert i last. induction a as [| x a IH]; intros i last.
  - rewrite append_nil. cbn [rfind_sep_from String.length].
    replace (is_sep "/") with true by reflexivity.
    rewrite (rfind_sep_from_no_sep b _ _ Hb). lia.
  - rewrite append_cons. cbn [rfind_sep_from String.length].
    rewrite IH. lia.
Qed.

Lemma substring_app (a b : string) :
  String.substring 0 (String.length a) (a ++ b) = a.
Proof.
  induction a as [| x a IH].
  - rewrite append_nil. destruct b; reflexivity.
  - rewrite append_cons. cbn [String.length String.substring].
    rewrite IH. reflexivity.
Qed.

Lemma length_app_sep (a : string) :
  String.length (a ++ "/") = S (String.length a).
Proof.
  induction a as [| x a IH]; [reflexivity |].
  rewrite append_cons. cbn [String.length]. rewrite IH. reflexivity.
Qed.

(** [p[:p.rfind('/') + 1]] when the last slash of [p] is known. *)
Lemma head_up_to_last_sep (a b : string) :
  contains_sep b = false ->
  slice_to (a ++ String "/" b) (rfind_sep (a ++ String "/" b) + 1)
  = a ++ "/".
Proof.
  intros Hb. unfold slice_to, rfind_sep.
  rewrite (rfind_sep_from_app a b 0 (-1) Hb).
  replace (Z.to_nat (0 + Z.of_nat (String.length a) + 1))
    with (String.length (a ++ "/")) by (rewrite length_app_sep; lia).
  change (String "/" b) with ("/" ++ b).
  rewrite append_assoc. apply substring_app.
Qed.

Lemma rstrip_sep_app_sep (x : string) :
  rstrip_sep (x ++ "/") = rstrip_sep x.
Proof.
  induction x as [| a x IH]; [reflexivity |].
  rewrite append_cons. cbn [rstrip_sep]. rewrite IH. reflexivity.
Qed.

Lemma rstrip_sep_id (x : string) :
  endswith_sep x = false -> rstrip_sep x = x.
Proof.
  induction x as [| a x IH]; [reflexivity |].
  intros Hend. cbn [rstrip_sep].
  destruct x as [| b x].
  - cbn in Hend |- *. rewrite Hend. reflexivity.
  - rewrite (IH Hend). reflexivity.
Qed.

Lemma all_sep_app (a b : string) :
  all_sep (a ++ b) = (all_sep a && all_sep b)%bool.
Proof.
  induction a as [| x a IH]; [reflexivity |].
  rewrite append_cons. cbn [all_sep]. rewrite IH, andb_assoc. reflexivity.
Qed.

Lemma plain_not_all_sep (cs : list string) :
  cs <> [] -> Forall posixpath.plain cs ->
  all_sep (String.concat "/" cs) = false.
Proof.
  intros Hne Hall.
  pose proof (concat_plain_head cs Hall) as Hhead.
  destruct (concat_plain_end cs Hne Hall) as [Hc _].
  destruct (String.concat "/" cs) as [| a r]; [congruence |].
  cbn in Hhead |- *. rewrite Hhead. reflexivity.
Qed.

(** [dirname] drops the last component of a normalized absolute path. *)
Lemma dirname_normalized (k : nat) (cs : list string) :
  k = 1%nat \/ k = 2%nat ->
  Forall posixpath.plain cs ->
  posixpath.dirname (seps k ++ String.concat "/" cs)
  = seps k ++ String.concat "/" (removelast cs).
Proof.
  intros Hk Hall.
  destruct cs as [| c0 cs0] using rev_ind.
  - destruct Hk as [-> | ->]; reflexivity.
  - clear IHcs0. rename cs0 into init. rename c0 into l.
    apply Forall_app in Hall as [Hinit Hl].
    inversion Hl as [| ? ? (Hlsep & _) _]; subst.
    rewrite removelast_last.
    destruct init as [| x init].
    + change (String.concat "/" ([] ++ [l])) with l.
      change (String.concat "/" []) with "".
      unfold posixpath.dirname.
      destruct Hk as [-> | ->].
      * change (seps 1 ++ l) with ("" ++ String "/" l).
        rewrite (head_up_to_last_sep "" l Hlsep). reflexivity.
      * change (seps 2 ++ l) with ("/" ++ String "/" l).
        rewrite (head_up_to_last_sep "/" l Hlsep). reflexivity.
    + rewrite concat_app by discriminate.
      change (String.concat "/" [l]) with l.
      set (c := String.concat "/" (x :: init)).
      destruct (concat_plain_end (x :: init) ltac:(discriminate) Hinit)
        as [Hcne Hcend].
      pose proof (plain_not_all_sep (x :: init) ltac:(discriminate) Hinit)
        as Hcall.
      fold c in Hcne, Hcend, Hcall.
      rewrite append_assoc.
      unfold posixpath.dirname.
      rewrite (head_up_to_last_sep (seps k ++ c) l Hlsep).
      assert (Hnz : String.eqb ((seps k ++ c) ++ "/") "" = false).
      { apply String.eqb_neq, append_not_empty. discriminate. }
      rewrite Hnz, !all_sep_app, Hcall, andb_false_r. cbn [negb andb].
      rewrite rstrip_sep_app_sep. apply rstrip_sep_id.
      rewrite endswith_sep_app by exact Hcne. exact Hcend.
Qed.

Lemma plain_bin_exe :
  Forall posixpath.plain ["bin"; "UltralibrarianImporter.exe"].
Proof.
  repeat constructor; try reflexivity; discriminate.
Qed.

(** X11.  On a POSIX host, with an absolute working directory, the path
    handed to [os.path.exists] and to [Popen] is the location of the
    script with its last component replaced by [bin] and
    [UltralibrarianImporter.exe]: one or two leading slashes, then
    components without [.], [..] or empty names joined by single slashes.
    It is absolute and [normpath] leaves it unchanged. *)
Theorem X11_posix_exe_path_is_normalized (cwd file : string) :
  posixpath.isabs cwd = true ->
  exists (k : nat) (cs : list string),
    (k = 1%nat \/ k = 2%nat)
    /\ Forall posixpath.plain cs
    /\ os.path.resolve (H := os.path.posix) cwd file
       = seps k ++ String.concat "/" cs
    /\ importer_launcher.exe_path_of (H := os.path.posix) cwd file
       = seps k ++ String.concat "/"
           (removelast cs ++ ["bin"; "UltralibrarianImporter.exe"])
    /\ posixpath.normpath
         (importer_launcher.exe_path_of (H := os.path.posix) cwd file)
       = importer_launcher.exe_path_of (H := os.path.posix) cwd file.
Proof.
  intros Hcwd.
  assert (Habs : posixpath.isabs
                   (if posixpath.isabs file then file
                    else posixpath.join cwd [file]) = true).
  { destruct (posixpath.isabs file) eqn:Hf; [exact Hf |].
    apply join_step_isabs, Hcwd. }
  destruct (normpath_abs_shape _ Habs) as (k & cs & Hk & Hcs & Hshape).
  assert (Hloc : os.path.resolve (H := os.path.posix) cwd file
                 = seps k ++ String.concat "/" cs) by exact Hshape.
  pose proof (Forall_removelast _ _ Hcs) as Hinit.
  assert (Hexe : importer_launcher.exe_path_of (H := os.path.posix) cwd file
                 = seps k ++ String.concat "/"
                     (removelast cs ++ ["bin"; "UltralibrarianImporter.exe"])).
  { unfold importer_launcher.exe_path_of, importer_launcher.script_dir_of.
    rewrite Hloc. cbn [os.path.dirname os.path.join os.path.posix].
    rewrite (dirname_normalized k cs Hk Hcs).
    rewrite join_bin_exe
      by (destruct Hk as [-> | ->]; reflexivity).
    destruct (removelast cs) as [| x init] eqn:Hrl.
    - destruct Hk as [-> | ->]; reflexivity.
    - destruct (concat_plain_end (x :: init) ltac:(discriminate) Hinit)
        as [Hcne Hcend].
      rewrite endswith_sep_app by exact Hcne. rewrite Hcend.
      rewrite concat_app by discriminate.
      change (String.concat "/" ["bin"; "UltralibrarianImporter.exe"])
        with "bin/UltralibrarianImporter.exe".
      change ("/" ++ "bin/UltralibrarianImporter.exe")
        with (String "/" "bin/UltralibrarianImporter.exe").
      rewrite <- append_assoc. reflexivity. }
  exists k, cs.
  split; [exact Hk | split; [exact Hcs | split; [exact Hloc |]]].
  split; [exact Hexe |].
  rewrite Hexe. apply normpath_fixed; [exact Hk |].
  apply Forall_app. split; [exact Hinit | exact plain_bin_exe].
Qed.

End PosixNormal.

(** ** The launcher contract: theorems *)

Section Theorems.
Context `{os.path.flavour}.

Lemma occurs_in_middle (a p b : string) : observe.occurs_in p (a ++ p ++ b).
Proof. exists a, b. reflexivity. Qed.

(** The eight-bit codes pass the platform unchanged. *)
Lemma posix_status_small (N : Z) :
  0 <= N <= 255 -> observe.posix_status N = N.
Proof.
  intros HN. unfold observe.posix_status.
  assert (Hfit : ((- 2 ^ 63 <=? N) && (N <? 2 ^ 63))%bool = true).
  { apply andb_true_intro. split; [apply Z.leb_le | apply Z.ltb_lt]; lia. }
  rewrite Hfit. apply Z.mod_small. lia.
Qed.

(** C1, as amended (exit code passthrough, happy path included).  Whenever
    an executable sits at the resolved path and the child started from it
    terminates so that [wait] returns [N], the script leaves through
    [sys.exit(N)].  The exit status its parent reads is [N] reduced by the
    platform, and it is exactly [N] whenever [0 <= N <= 255], the range of
    the codes a child can exit with; 0 gives 0. *)
Theorem C1_exit_code_passthrough (w : py.world) (prog : py.program) (N : Z) :
  py.w_fs w !! exe_path w = Some (py.RegularFile (Some prog)) ->
  prog (py.w_environ w) = Some N ->
  observe.waits (events w) = [Some N]
  /\ result w = py.Raise (py.SystemExit N)
  /\ observe.reported_status (result w) = Some (observe.posix_status N)
  /\ (0 <= N <= 255 -> observe.reported_status (result w) = Some N).
Proof.
  intros Hfs Hrc. unfold result, events.
  rewrite (run_exited w prog N Hfs Hrc). cbn.
  split; [reflexivity | split; [reflexivity | split; [reflexivity |]]].
  intros HN. unfold observe.reported_status. cbn.
  rewrite (posix_status_small N HN). reflexivity.
Qed.

(** C2 (missing file).  When nothing exists at the resolved path the
    script never calls [Popen], writes one message, which contains the
    resolved path, and leaves with exit status 1. *)
Theorem C2_missing_executable (w : py.world) :
  py.w_fs w !! exe_path w = None ->
  observe.popens (events w) = []
  /\ (exists text : string,
        observe.writes (events w) = [(py.stdout, text)]
        /\ observe.occurs_in (exe_path w) text)
  /\ result w = py.Raise (py.SystemExit 1)
  /\ observe.exit_status (result w) = Some 1.
Proof.
  intros Hfs. unfold result, events. rewrite (run_missing w Hfs). cbn.
  split; [reflexivity | split; [| auto]].
  exists (diagnostic w). split; [reflexivity |].
  unfold diagnostic. apply occurs_in_middle.
Qed.

(** C3, as amended.  The check of line 16 is [os.path.exists].  When
    nothing exists at the computed path the diagnostic is written, the
    status is 1 and [Popen] is never called.  When anything exists there,
    a regular file or not (a directory, say), nothing is written, line 18
    is not reached and the launch is attempted with the computed path.
    No other condition is handled: the diagnostic and line 18 occur on
    the first branch only. *)
Theorem C3_existence_check (w : py.world) :
  (py.w_fs w !! exe_path w = None ->
     observe.writes (events w) = [(py.stdout, diagnostic w)]
     /\ observe.exit_status (result w) = Some 1
     /\ observe.popens (events w) = [])
  /\ (forall n : py.node,
        py.w_fs w !! exe_path w = Some n ->
        observe.writes (events w) = []
        /\ existsb (Nat.eqb 18) (observe.lines (events w)) = false
        /\ exists started : bool,
             observe.popens (events w)
             = [(exe_path w, py.w_environ w, started)]).
Proof.
  split.
  - intros Hfs. unfold result, events. rewrite (run_missing w Hfs).
    cbn. auto.
  - intros n Hfs. unfold result, events.
    destruct (run_cases w) as [Hnone | n' Hn' Hbad | prog Hp Hrc
                              | prog rc Hp Hrc].
    + congruence.
    + rewrite (run_refused w n' Hn' Hbad). cbn.
      split; [reflexivity | split; [reflexivity |]]. eauto.
    + rewrite (run_blocked w prog Hp Hrc). cbn.
      split; [reflexivity | split; [reflexivity |]]. eauto.
    + rewrite (run_exited w prog rc Hp Hrc). cbn.
      split; [reflexivity | split; [reflexivity |]]. eauto.
Qed.

(** C10 (the diagnostic).  On the missing-executable path the only write
    of the run goes to standard output, none to standard error, and its
    text is ["Error: Executable not found at "], the resolved path, and
    the newline [print] ends the line with. *)
Theorem C10_diagnostic_on_stdout (w : py.world) :
  py.w_fs w !! exe_path w = None ->
  observe.writes (events w)
  = [(py.stdout,
      "Error: Executable not found at " ++ exe_path w ++ String "010" "")].
Proof.
  intros Hfs. unfold events. rewrite (run_missing w Hfs). reflexivity.
Qed.

Lemma resolve_isabs (cwd cwd' file : string) :
  os.path.isabs file = true ->
  os.path.resolve cwd file = os.path.resolve cwd' file.
Proof. intros Habs. unfold os.path.resolve. rewrite Habs. reflexivity. Qed.



(** C5 (environment passthrough).  Every call of [Popen] in a run is
    handed exactly the mapping [os.environ] held when the interpreter
    started: the same value under every name, nothing added, removed or
    changed.  The launcher's own mapping is still that one when the run
    ends, and the child's return code is the one the program gives on
    that environment. *)
Theorem C5_environment_passthrough (w : py.world) (args : string)
    (env : gmap string string) (started : bool) :
  In (args, env, started) (observe.popens (events w)) ->
  env = py.w_environ w
  /\ (forall name : string, env !! name = py.w_environ w !! name)
  /\ final_environ w = py.w_environ w
  /\ (forall prog : py.program,
        py.w_fs w !! exe_path w = Some (py.RegularFile (Some prog)) ->
        observe.waits (events w) = [prog (py.w_environ w)]).
Proof.
  unfold events, final_environ.
  destruct (run_cases w) as [Hnone | n Hn Hbad | prog Hp Hrc
                            | prog rc Hp Hrc].
  - rewrite (run_missing w Hnone). cbn. intros [].
  - rewrite (run_refused w n Hn Hbad). cbn.
    intros [Heq | []]. injection Heq as _ <- _.
    repeat split; try reflexivity.
    intros prog Hprog. exfalso. apply (Hbad prog). congruence.
  - rewrite (run_blocked w prog Hp Hrc). cbn.
    intros [Heq | []]. injection Heq as _ <- _.
    repeat split; try reflexivity.
    intros prog' Hprog. congruence.
  - rewrite (run_exited w prog rc Hp Hrc). cbn.
    intros [Heq | []]. injection Heq as _ <- _.
    repeat split; try reflexivity.
    intros prog' Hprog. congruence.
Qed.

(** C6 (dead statement).  Line 26, [os.environ.update(os.environ)], is
    never executed: no run logs a call from it, and the launcher with the
    statement dropped gives the same outcome, the same log (so the same
    spawn and the same output) and the same final [os.environ] from
    every starting state, because [sys.exit] on line 25 has already
    raised. *)
Theorem C6_update_is_dead_code (w : py.world) (s : py.state) :
  importer_launcher.launch_importer w s
  = launch_importer_without_update w s
  /\ run w = run_without_update w
  /\ existsb (Nat.eqb 26) (observe.lines (events w)) = false
  /\ final_environ w = py.w_environ w.
Proof.
  assert (Hsame : forall w' s',
            importer_launcher.launch_importer w' s'
            = launch_importer_without_update w' s').
  { intros w' s'.
    unfold importer_launcher.launch_importer,
      launch_importer_without_update.
    apply bind_ext; intros file w1 s1.
    apply bind_ext; intros abs w2 s2. cbv zeta.
    apply bind_ext; intros found w3 s3.
    apply bind_ext; intros _ w4 s4.
    apply bind_ext; intros env w5 s5.
    apply bind_ext; intros process w6 s6.
    apply bind_ext; intros return_code w7 s7.
    apply exit_cuts. }
  split; [apply Hsame | split].
  - unfold run, run_without_update, importer_launcher.module_body.
    apply bind_same_head, Hsame.
  - unfold events, final_environ.
    destruct (run_cases w) as [Hnone | n Hn Hbad | prog Hp Hrc
                              | prog rc Hp Hrc].
    + rewrite (run_missing w Hnone). cbn. auto.
    + rewrite (run_refused w n Hn Hbad). cbn. auto.
    + rewrite (run_blocked w prog Hp Hrc). cbn. auto.
    + rewrite (run_exited w prog rc Hp Hrc). cbn. auto.
Qed.

(** A run reads [__file__], the working directory, the environment and
    the file system of its invocation, and nothing else. *)
Lemma run_reads (w w' : py.world) :
  py.w_file w = py.w_file w' ->
  py.w_cwd w = py.w_cwd w' ->
  py.w_environ w = py.w_environ w' ->
  py.w_fs w = py.w_fs w' ->
  run w = run w'.
Proof.
  intros Hfile Hcwd Henv Hfs.
  assert (Hloc : script_location w = script_location w')
    by (unfold script_location; rewrite Hfile, Hcwd; reflexivity).
  assert (Hexe : exe_path w = exe_path w')
    by (rewrite !exe_path_unfold, Hloc; reflexivity).
  destruct (run_cases w) as [Hnone | n Hn Hbad | prog Hp Hrc
                            | prog rc Hp Hrc].
  - rewrite (run_missing w Hnone).
    rewrite Hfs, Hexe in Hnone. rewrite (run_missing w' Hnone).
    unfold diagnostic. rewrite Hfile, Hloc, Hexe, Henv. reflexivity.
  - rewrite (run_refused w n Hn Hbad).
    rewrite Hfs, Hexe in Hn. rewrite (run_refused w' n Hn Hbad).
    rewrite Hfile, Hloc, Hexe, Henv. reflexivity.
  - rewrite (run_blocked w prog Hp Hrc).
    rewrite Hfs, Hexe in Hp. rewrite Henv in Hrc.
    rewrite (run_blocked w' prog Hp Hrc).
    rewrite Hfile, Hloc, Hexe, Henv. reflexivity.
  - rewrite (run_exited w prog rc Hp Hrc).
    rewrite Hfs, Hexe in Hp. rewrite Henv in Hrc.
    rewrite (run_exited w' prog rc Hp Hrc).
    rewrite Hfile, Hloc, Hexe, Henv. reflexivity.
Qed.

(** C7 (arguments are not read).  Two invocations that differ in the
    argument vector only, so with the same file system, environment and
    child, give the same outcome, the same log (hence the same
    diagnostic and the same spawn decision) and the same exit status. *)
Theorem C7_argv_independence (w : py.world) (argv : list string) :
  run (observe.with_argv argv w) = run w
  /\ observe.exit_status (result (observe.with_argv argv w))
     = observe.exit_status (result w)
  /\ observe.writes (events (observe.with_argv argv w))
     = observe.writes (events w)
  /\ observe.popens (events (observe.with_argv argv w))
     = observe.popens (events w).
Proof.
  assert (Hrun : run (observe.with_argv argv w) = run w)
    by (apply run_reads; reflexivity).
  unfold result, events. rewrite Hrun. auto.
Qed.

(** Closes [NoDup l] for a list of distinct constructors. *)
Ltac all_distinct :=
  repeat (apply NoDup_cons_2;
          [ let Hin := fresh "Hin" in
            intros Hin;
            repeat (apply elem_of_cons in Hin as [Hin | Hin];
                    [discriminate Hin |]);
            apply elem_of_nil in Hin; exact Hin
          | ]);
  apply NoDup_nil_2.

(** C8 (one pass, no loop).  In every run [Popen] is called at most once,
    so at most one process is created, [wait] is called at most once and
    at most one line is written.  The lines executed are 12, 16 and then
    either 17, 18 or an initial part of 21, 24, 25; no line runs twice.
    The phases entered follow the arrows of the design's machine from
    Start, leave it nowhere and enter no phase twice. *)
Theorem C8_linear_control (w : py.world) :
  (length (observe.popens (events w)) <= 1)%nat
  /\ (length (observe.spawned (events w)) <= 1)%nat
  /\ (length (observe.waits (events w)) <= 1)%nat
  /\ (length (observe.writes (events w)) <= 1)%nat
  /\ (observe.lines (events w) = [12; 16; 17; 18]%nat
      \/ observe.lines (events w) = [12; 16; 21]%nat
      \/ observe.lines (events w) = [12; 16; 21; 24]%nat
      \/ observe.lines (events w) = [12; 16; 21; 24; 25]%nat)
  /\ NoDup (observe.lines (events w))
  /\ machine.follows machine.Start (visited w) = true
  /\ NoDup (visited w).
Proof.
  unfold visited, events.
  destruct (run_cases w) as [Hnone | n Hn Hbad | prog Hp Hrc
                            | prog rc Hp Hrc].
  - rewrite (run_missing w Hnone). cbn.
    repeat split; try lia; try tauto; all_distinct.
  - rewrite (run_refused w n Hn Hbad). cbn.
    repeat split; try lia; try tauto; all_distinct.
  - rewrite (run_blocked w prog Hp Hrc). cbn.
    repeat split; try lia; try tauto; all_distinct.
  - rewrite (run_exited w prog rc Hp Hrc). cbn.
    repeat split; try lia; try tauto; all_distinct.
Qed.

(** C9, as amended.  The module has no main guard: importing it runs
    [launch_importer], line 12 first, in every invocation, and the import
    never hands control back.  It ends with [SystemExit(1)] when nothing
    exists at the executable path, with [SystemExit(rc)] when the child
    was started and [wait] returned [rc], with the [OSError] of [Popen]
    when what sits at the path cannot be started, and it stays blocked in
    [wait] while the child does not exit. *)
Theorem C9_import_never_returns (w : py.world) :
  existsb (Nat.eqb 12) (observe.lines (events w)) = true
  /\ returned (result w) = false
  /\ result w = expected_end w.
Proof.
  unfold result, events, expected_end.
  destruct (run_cases w) as [Hnone | n Hn Hbad | prog Hp Hrc
                            | prog rc Hp Hrc].
  - rewrite (run_missing w Hnone), Hnone. cbn. auto.
  - rewrite (run_refused w n Hn Hbad), Hn. cbn.
    destruct n as [| [prog |]]; auto.
    exfalso. apply (Hbad prog). reflexivity.
  - rewrite (run_blocked w prog Hp Hrc), Hp, Hrc. cbn. auto.
  - rewrite (run_exited w prog rc Hp Hrc), Hp, Hrc. cbn. auto.
Qed.

End Theorems.

(** ** The contract on the sample invocations *)

(** The scenario of the design: a child that exits 42. *)
Lemma C1_exit_code_passthrough_witness :
  observe.waits (events (sample.installed 42)) = [Some 42]
  /\ result (sample.installed 42) = py.Raise (py.SystemExit 42)
  /\ observe.reported_status (result (sample.installed 42))
     = Some (observe.posix_status 42)
  /\ observe.reported_status (result (sample.installed 42)) = Some 42.
Proof.
  destruct (C1_exit_code_passthrough
              (sample.installed 42) (sample.exits_with 42) 42)
    as (Hwait & Hres & Hred & Hexact).
  - vm_compute. reflexivity.
  - reflexivity.
  - split; [exact Hwait | split; [exact Hres | split; [exact Hred |]]].
    apply Hexact. lia.
Defined.

(** A child killed by signal 9: [wait] returns -9, the script calls
    [sys.exit(-9)], and the parent of the launcher reads 247. *)
Lemma C1_killed_child_status_is_reduced :
  ~ passes_code_through (sample.killed_by 9).
Proof.
  intros Hclaim.
  specialize (Hclaim (fun _ => Some (- 9)) (- 9)).
  assert (Hstatus : observe.reported_status (result (sample.killed_by 9))
                    = Some 247) by (vm_compute; reflexivity).
  rewrite Hstatus in Hclaim.
  assert (Habsurd : Some 247 = Some (- 9)).
  { apply Hclaim; vm_compute; reflexivity. }
  discriminate Habsurd.
Qed.

Lemma C2_missing_executable_witness :
  observe.popens (events sample.missing) = []
  /\ (exists text : string,
        observe.writes (events sample.missing) = [(py.stdout, text)]
        /\ observe.occurs_in (exe_path sample.missing) text)
  /\ result sample.missing = py.Raise (py.SystemExit 1)
  /\ observe.exit_status (result sample.missing) = Some 1.
Proof.
  apply (C2_missing_executable sample.missing).
  vm_compute. reflexivity.
Defined.

(** A directory at the executable path passes the check of line 16:
    nothing is written and [Popen] is called on it. *)
Lemma C3_directory_is_not_rejected :
  ~ rejects_non_files sample.directory_in_place.
Proof.
  intros Hclaim.
  destruct Hclaim as [Hwritten _].
  - intros image. vm_compute. discriminate.
  - apply Hwritten. vm_compute. reflexivity.
Qed.

Lemma C3_existence_check_witness :
  (observe.writes (events sample.missing)
   = [(py.stdout, diagnostic sample.missing)]
   /\ observe.exit_status (result sample.missing) = Some 1
   /\ observe.popens (events sample.missing) = [])
  /\ (observe.writes (events sample.directory_in_place) = []
      /\ existsb (Nat.eqb 18)
           (observe.lines (events sample.directory_in_place)) = false
      /\ exists started : bool,
           observe.popens (events sample.directory_in_place)
           = [(exe_path sample.directory_in_place, sample.env, started)]).
Proof.
  split.
  - apply (proj1 (C3_existence_check sample.missing)).
    vm_compute. reflexivity.
  - apply (proj2 (C3_existence_check sample.directory_in_place)
             py.Directory).
    vm_compute. reflexivity.
Defined.


(** The child that checks [KICAD_USER] finds it. *)
Lemma C5_environment_passthrough_witness :
  sample.env = py.w_environ sample.installed_checking_env
  /\ (forall name : string,
        sample.env !! name = py.w_environ sample.installed_checking_env !! name)
  /\ final_environ sample.installed_checking_env
     = py.w_environ sample.installed_checking_env
  /\ (forall prog : py.program,
        py.w_fs sample.installed_checking_env
          !! exe_path sample.installed_checking_env
        = Some (py.RegularFile (Some prog)) ->
        observe.waits (events sample.installed_checking_env)
        = [prog (py.w_environ sample.installed_checking_env)]).
Proof.
  apply (C5_environment_passthrough
           sample.installed_checking_env sample.exe sample.env true).
  vm_compute. left. reflexivity.
Defined.

(** With a directory in place the import ends with [OSError], which is
    neither of the two exits. *)
Lemma C9_directory_ends_by_oserror :
  ~ ends_by_exit sample.directory_in_place.
Proof.
  intros [[Hnone _] | (rc & _ & _ & Hexit)].
  - vm_compute in Hnone. discriminate Hnone.
  - vm_compute in Hexit. discriminate Hexit.
Qed.

Lemma C10_diagnostic_on_stdout_witness :
  observe.writes (events sample.missing)
  = [(py.stdout,
      "Error: Executable not found at "
      ++ "/opt/kicad/plugins/ultra/bin/UltralibrarianImporter.exe"
      ++ String "010" "")].
Proof.
  rewrite (C10_diagnostic_on_stdout sample.missing).
  - vm_compute. reflexivity.
  - vm_compute. reflexivity.
Defined.

(** ** More of the sample invocations *)

(** The scenario of the design: a stub that exits 42, the launcher started
    from an unrelated working directory. *)
Example scenario_exit_42 :
  result (observe.with_cwd "/srv/unrelated" (sample.installed 42))
  = py.Raise (py.SystemExit 42).
Proof. vm_compute. reflexivity. Qed.

Example relative_script_location :
  script_location sample.relative
  = "/opt/kicad/plugins/ultra/importer_launcher.py"
  /\ exe_path sample.relative = sample.exe
  /\ result sample.relative = py.Raise (py.SystemExit 42).
Proof. vm_compute. auto. Qed.

Example hanging_child_blocks :
  result sample.hanging = py.Blocked
  /\ observe.lines (events sample.hanging) = [12; 16; 21; 24]%nat
  /\ observe.exit_status (result sample.hanging) = None.
Proof. vm_compute. auto. Qed.

Example not_executable_raises :
  result sample.not_executable = py.Raise py.OSError
  /\ observe.lines (events sample.not_executable) = [12; 16; 21]%nat
  /\ observe.writes (events sample.not_executable) = [].
Proof. vm_compute. auto. Qed.

Example directory_raises :
  result sample.directory_in_place = py.Raise py.OSError
  /\ observe.checked (events sample.directory_in_place) = [sample.exe]
  /\ observe.writes (events sample.directory_in_place) = [].
Proof. vm_compute. auto. Qed.

Example missing_phases :
  visited sample.missing
  = [Some machine.ResolvePath; Some machine.CheckExists; Some machine.Fail].
Proof. vm_compute. reflexivity. Qed.

Example installed_phases :
  visited (sample.installed 7)
  = [Some machine.ResolvePath; Some machine.CheckExists;
     Some machine.Launch; Some machine.Wait; Some machine.Propagate].
Proof. vm_compute. reflexivity. Qed.

(** [posixpath] on the values of CPython's own tests and documentation. *)
Example normpath_values :
  posixpath.normpath "" = "."
  /\ posixpath.normpath "/" = "/"
  /\ posixpath.normpath "//" = "//"
  /\ posixpath.normpath "///" = "/"
  /\ posixpath.normpath "///foo/.//bar//" = "/foo/bar"
  /\ posixpath.normpath "///foo/.//bar//.//..//.//baz" = "/foo/baz"
  /\ posixpath.normpath "///..//./foo/.//bar" = "/foo/bar"
  /\ posixpath.normpath "A//B" = "A/B"
  /\ posixpath.normpath "A/foo/../B" = "A/B"
  /\ posixpath.normpath "../.." = "../..".
Proof. vm_compute. repeat split. Qed.

Example dirname_values :
  posixpath.dirname "/foo/bar" = "/foo"
  /\ posixpath.dirname "/" = "/"
  /\ posixpath.dirname "foo" = ""
  /\ posixpath.dirname "////foo" = "////"
  /\ posixpath.dirname "//foo//bar" = "//foo".
Proof. vm_compute. repeat split. Qed.

Example join_values :
  posixpath.join "/foo" ["bar"; "/bar"; "baz"] = "/bar/baz"
  /\ posixpath.join "/foo" ["bar"; "baz"] = "/foo/bar/baz"
  /\ posixpath.join "/foo/" ["bar/"; "baz/"] = "/foo/bar/baz/"
  /\ posixpath.join "" ["bin"] = "bin"
  /\ posixpath.join "/" ["bin"; "UltralibrarianImporter.exe"]
     = "/bin/UltralibrarianImporter.exe".
Proof. vm_compute. repeat split. Qed.

(** ** Further properties of the launcher *)

Section Further.
Context `{os.path.flavour}.

(** The launcher's own steps are fixed by [__file__], the location it
    resolves to, the environment and the standing of the executable path;
    the whole run is fixed once the child returns the same as well. *)
Lemma own_steps_determined (w w' : py.world) :
  py.w_file w' = py.w_file w ->
  script_location w' = script_location w ->
  py.w_environ w' = py.w_environ w ->
  standing_at w' = standing_at w ->
  observe.checked (events w') = observe.checked (events w)
  /\ observe.popens (events w') = observe.popens (events w)
  /\ observe.writes (events w') = observe.writes (events w)
  /\ (child_return w' = child_return w -> run w' = run w).
Proof.
  intros Hfile Hloc Henv Hstand.
  assert (Hexe : exe_path w' = exe_path w)
    by (rewrite !exe_path_unfold, Hloc; reflexivity).
  unfold standing_at in Hstand. unfold child_return, events.
  destruct (run_cases w) as [Hnone | n Hn Hbad | prog Hp Hrc
                            | prog rc Hp Hrc];
    destruct (run_cases w') as [Hnone' | n' Hn' Hbad' | prog' Hp' Hrc'
                               | prog' rc' Hp' Hrc'].
  all: repeat match goal with
         | Hx : py.w_fs _ !! _ = _ |- _ => rewrite Hx in Hstand |- *
         end.
  all: try (destruct n as [| [? |]]; try discriminate Hstand;
            try (exfalso; eapply Hbad; reflexivity)).
  all: try (destruct n' as [| [? |]]; try discriminate Hstand;
            try (exfalso; eapply Hbad'; reflexivity)).
  all: try discriminate Hstand.
  all: repeat match goal with
         | Hx : py.w_fs ?v !! exe_path ?v = None |- _ =>
             rewrite (run_missing v Hx); clear Hx
         | Hx : py.w_fs ?v !! exe_path ?v = Some ?m,
           Hy : forall prog, ?m <> _ |- _ =>
             rewrite (run_refused v m Hx Hy); clear Hx
         | Hx : py.w_fs ?v !! exe_path ?v = Some (py.RegularFile (Some ?q)),
           Hy : ?q (py.w_environ ?v) = None |- _ =>
             rewrite (run_blocked v q Hx Hy); clear Hx
         | Hx : py.w_fs ?v !! exe_path ?v = Some (py.RegularFile (Some ?q)),
           Hy : ?q (py.w_environ ?v) = Some ?c |- _ =>
             rewrite (run_exited v q c Hx Hy); clear Hx
         end.
  all: cbn; unfold diagnostic; rewrite ?Hfile, ?Hloc, ?Hexe, ?Henv.
  all: repeat split; try reflexivity.
  all: try rewrite Henv in Hrc'.
  all: intros Hret; rewrite ?Hrc, ?Hrc' in Hret;
    try discriminate Hret; try (injection Hret as ->); reflexivity.
Qed.


(** X2.  Exit status 1 alone does not tell a missing executable from a
    child that exits 1: both runs end with [SystemExit(1)].  What tells
    them apart is the diagnostic on standard output, written in the first
    run and absent from the second. *)
Theorem X2_status_one_needs_the_diagnostic (w w' : py.world)
    (prog : py.program) :
  py.w_fs w !! exe_path w = None ->
  py.w_fs w' !! exe_path w' = Some (py.RegularFile (Some prog)) ->
  prog (py.w_environ w') = Some 1 ->
  result w = result w'
  /\ observe.exit_status (result w) = Some 1
  /\ observe.writes (events w) = [(py.stdout, diagnostic w)]
  /\ observe.writes (events w') = [].
Proof.
  intros Hnone Hp Hrc. unfold result, events.
  rewrite (run_missing w Hnone), (run_exited w' prog 1 Hp Hrc). cbn. auto.
Qed.

(** X3.  The launcher starts nothing but the path it has just checked:
    [Popen] is called exactly when [os.path.exists] at line 16 answered
    true, and its argument is the very path that check was made on. *)
Theorem X3_launches_only_the_checked_path (w : py.world) :
  (observe.popens (events w) <> []
   <-> In (py.At 16 (py.c_exists (exe_path w) true)) (events w))
  /\ (forall (args : string) (env : gmap string string) (started : bool),
        In (args, env, started) (observe.popens (events w)) ->
        observe.checked (events w) = [args]
        /\ py.w_fs w !! args <> None).
Proof.
  unfold events.
  destruct (run_cases w) as [Hnone | n Hn Hbad | prog Hp Hrc
                            | prog rc Hp Hrc].
  - rewrite (run_missing w Hnone). cbn. split.
    + split; [congruence |].
      intros [Hin | [Hin | [Hin | [Hin | []]]]]; discriminate Hin.
    + intros args env started [].
  - rewrite (run_refused w n Hn Hbad). cbn. split.
    + split; [auto | discriminate].
    + intros args env started [Heq | []]. injection Heq as <- _ _.
      split; [reflexivity | congruence].
  - rewrite (run_blocked w prog Hp Hrc). cbn. split.
    + split; [auto | discriminate].
    + intros args env started [Heq | []]. injection Heq as <- _ _.
      split; [reflexivity | congruence].
  - rewrite (run_exited w prog rc Hp Hrc). cbn. split.
    + split; [auto | discriminate].
    + intros args env started [Heq | []]. injection Heq as <- _ _.
      split; [reflexivity | congruence].
Qed.

(** X4.  Of the file system the launcher itself uses one thing only:
    whether something sits at the resolved path, and whether [Popen] can
    start it.  Two invocations that differ in their file systems but agree
    on that check the same path, make the same [Popen] calls and write the
    same; when the child, which may read any file, returns the same too,
    the whole run is the same. *)
Theorem X4_reads_one_path_of_the_file_system (w w' : py.world) :
  py.w_file w' = py.w_file w ->
  py.w_cwd w' = py.w_cwd w ->
  py.w_environ w' = py.w_environ w ->
  standing_at w' = standing_at w ->
  observe.checked (events w') = observe.checked (events w)
  /\ observe.popens (events w') = observe.popens (events w)
  /\ observe.writes (events w') = observe.writes (events w)
  /\ (child_return w' = child_return w -> run w' = run w).
Proof.
  intros Hfile Hcwd Henv Hstand.
  apply own_steps_determined; try assumption.
  unfold script_location. rewrite Hfile, Hcwd. reflexivity.
Qed.

(** X5.  The launcher itself reads no environment variable: the
    environment reaches the run through the child only.  Under another
    environment on which the program at the resolved path behaves the
    same, the outcome, the lines executed and the output are the same. *)
Theorem X5_environment_matters_through_the_child_only (w : py.world)
    (env : gmap string string) :
  (forall prog : py.program,
     py.w_fs w !! exe_path w = Some (py.RegularFile (Some prog)) ->
     prog env = prog (py.w_environ w)) ->
  result (observe.with_environ env w) = result w
  /\ observe.lines (events (observe.with_environ env w))
     = observe.lines (events w)
  /\ observe.writes (events (observe.with_environ env w))
     = observe.writes (events w)
  /\ observe.waits (events (observe.with_environ env w))
     = observe.waits (events w).
Proof.
  intros Hsame. unfold result, events.
  destruct (run_cases w) as [Hnone | n Hn Hbad | prog Hp Hrc
                            | prog rc Hp Hrc].
  - rewrite (run_missing w Hnone).
    rewrite (run_missing (observe.with_environ env w) Hnone). cbn. auto.
  - rewrite (run_refused w n Hn Hbad).
    rewrite (run_refused (observe.with_environ env w) n Hn Hbad). cbn. auto.
  - rewrite (run_blocked w prog Hp Hrc).
    rewrite <- (Hsame prog Hp) in Hrc.
    rewrite (run_blocked (observe.with_environ env w) prog Hp Hrc).
    cbn. auto.
  - rewrite (run_exited w prog rc Hp Hrc).
    rewrite <- (Hsame prog Hp) in Hrc.
    rewrite (run_exited (observe.with_environ env w) prog rc Hp Hrc).
    cbn. auto.
Qed.

(** X6.  With an absolute [__file__] the launcher's own steps are the same
    from every working directory: the same path is checked, the same
    [Popen] calls are made and the same is written.  The child inherits
    the working directory and may return something else from another one;
    when it returns the same, the whole run is the same. *)
Theorem X6_absolute_file_runs_alike_from_anywhere (w w' : py.world) :
  os.path.isabs (py.w_file w) = true ->
  py.w_file w' = py.w_file w ->
  py.w_environ w' = py.w_environ w ->
  standing_at w' = standing_at w ->
  observe.checked (events w') = observe.checked (events w)
  /\ observe.popens (events w') = observe.popens (events w)
  /\ observe.writes (events w') = observe.writes (events w)
  /\ (child_return w' = child_return w -> run w' = run w).
Proof.
  intros Habs Hfile Henv Hstand.
  apply own_steps_determined; try assumption.
  unfold script_location. rewrite Hfile.
  apply resolve_isabs, Habs.
Qed.

(** X7.  Called in any state, [launch_importer] leaves [os.environ] as it
    found it, only adds to the log, never returns to its caller, and hands
    every [Popen] the mapping [os.environ] holds at the time of the call. *)
Theorem X7_call_leaves_environ_alone (w : py.world) (s : py.state) :
  exists new : list py.event,
    snd (importer_launcher.launch_importer w s)
    = {| py.environ := py.environ s; py.trace := py.trace s ++ new |}
    /\ returned (fst (importer_launcher.launch_importer w s)) = false
    /\ Forall (fun c => snd (fst c) = py.environ s) (observe.popens new).
Proof.
  unfold importer_launcher.launch_importer, py.bind, py.__file__,
    os.path.abspath, os.path.exists_, os.environ, subprocess.Popen,
    subprocess.wait, sys.exit, py.print, py.ret, py.log.
  cbn.
  destruct (py.w_fs w !! _) as [[| [prog |]] |]; cbn.
  - eexists. rewrite <- !app_assoc. cbn.
    split; [reflexivity | split; [reflexivity |]].
    repeat constructor.
  - destruct (prog (py.environ s)) as [rc |]; cbn.
    + eexists. rewrite <- !app_assoc. cbn.
      split; [reflexivity | split; [reflexivity |]].
      repeat constructor.
    + eexists. rewrite <- !app_assoc. cbn.
      split; [reflexivity | split; [reflexivity |]].
      repeat constructor.
  - eexists. rewrite <- !app_assoc. cbn.
    split; [reflexivity | split; [reflexivity |]].
    repeat constructor.
  - eexists. rewrite <- !app_assoc. cbn.
    split; [reflexivity | split; [reflexivity |]].
    repeat constructor.
Qed.


End Further.

(** ** The further properties on the sample invocations *)


Lemma X2_status_one_witness :
  result sample.missing = result (sample.installed 1)
  /\ observe.exit_status (result sample.missing) = Some 1
  /\ observe.writes (events sample.missing)
     = [(py.stdout, diagnostic sample.missing)]
  /\ observe.writes (events (sample.installed 1)) = [].
Proof.
  apply (X2_status_one_needs_the_diagnostic
           sample.missing (sample.installed 1) (sample.exits_with 1)).
  - vm_compute. reflexivity.
  - vm_compute. reflexivity.
  - reflexivity.
Defined.

Lemma X3_checked_path_witness :
  observe.checked (events (sample.installed 0)) = [sample.exe]
  /\ py.w_fs (sample.installed 0) !! sample.exe <> None.
Proof.
  apply (proj2 (X3_launches_only_the_checked_path (sample.installed 0))
           sample.exe sample.env true).
  vm_compute. left. reflexivity.
Defined.

(** Another file elsewhere in the file system changes nothing. *)
Lemma X4_one_path_witness :
  observe.checked
    (events (observe.with_fs {[ "/etc/hostname" := py.RegularFile None ]}
               sample.missing))
  = observe.checked (events sample.missing)
  /\ observe.popens
       (events (observe.with_fs {[ "/etc/hostname" := py.RegularFile None ]}
                  sample.missing))
     = observe.popens (events sample.missing)
  /\ observe.writes
       (events (observe.with_fs {[ "/etc/hostname" := py.RegularFile None ]}
                  sample.missing))
     = observe.writes (events sample.missing)
  /\ run (observe.with_fs {[ "/etc/hostname" := py.RegularFile None ]}
            sample.missing)
     = run sample.missing.
Proof.
  destruct (X4_reads_one_path_of_the_file_system sample.missing
              (observe.with_fs {[ "/etc/hostname" := py.RegularFile None ]}
                 sample.missing))
    as (Hchecked & Hpopens & Hwrites & Hrun);
    try reflexivity.
  split; [exact Hchecked | split; [exact Hpopens | split; [exact Hwrites |]]].
  apply Hrun. reflexivity.
Defined.

(** A child that ignores its environment, run under the empty one. *)
Lemma X5_environment_witness :
  result (observe.with_environ ∅ (sample.installed 5))
  = result (sample.installed 5)
  /\ observe.lines (events (observe.with_environ ∅ (sample.installed 5)))
     = observe.lines (events (sample.installed 5))
  /\ observe.writes (events (observe.with_environ ∅ (sample.installed 5)))
     = observe.writes (events (sample.installed 5))
  /\ observe.waits (events (observe.with_environ ∅ (sample.installed 5)))
     = observe.waits (events (sample.installed 5)).
Proof.
  apply (X5_environment_matters_through_the_child_only
           (sample.installed 5) ∅).
  intros prog Hprog. vm_compute in Hprog.
  injection Hprog as <-. reflexivity.
Defined.

(** The importer exits 42 when started from the board directory and 3
    when started elsewhere: the launcher's steps are the same, the exit
    differs with the child. *)
Lemma X6_absolute_file_witness :
  observe.checked (events sample.started_elsewhere)
  = observe.checked (events (sample.installed 42))
  /\ observe.popens (events sample.started_elsewhere)
     = observe.popens (events (sample.installed 42))
  /\ observe.writes (events sample.started_elsewhere)
     = observe.writes (events (sample.installed 42))
  /\ result sample.started_elsewhere = py.Raise (py.SystemExit 3)
  /\ result (sample.installed 42) = py.Raise (py.SystemExit 42).
Proof.
  destruct (X6_absolute_file_runs_alike_from_anywhere
              (sample.installed 42) sample.started_elsewhere)
    as (Hchecked & Hpopens & Hwrites & _);
    try reflexivity.
  split; [exact Hchecked | split; [exact Hpopens | split; [exact Hwrites |]]].
  split; vm_compute; reflexivity.
Defined.

Lemma X9_posix_shape_witness :
  let d := importer_launcher.script_dir_of
             "/opt/kicad/bin" "../plugins/ultra/importer_launcher.py" in
  let p := importer_launcher.exe_path_of
             "/opt/kicad/bin" "../plugins/ultra/importer_launcher.py" in
  posixpath.isabs d = true
  /\ posixpath.isabs p = true
  /\ p = d ++ (if pystr.all_sep d then "" else "/")
           ++ "bin/UltralibrarianImporter.exe".
Proof.
  apply (posix_exe_path_shape
           "/opt/kicad/bin" "../plugins/ultra/importer_launcher.py").
  reflexivity.
Defined.

Lemma X10_stable_location_witness :
  let location := os.path.resolve
                    "/opt/kicad/bin" "../plugins/ultra/importer_launcher.py" in
  posixpath.isabs location = true
  /\ os.path.resolve "/srv/unrelated" location = location
  /\ importer_launcher.exe_path_of "/srv/unrelated" location
     = importer_launcher.exe_path_of
         "/opt/kicad/bin" "../plugins/ultra/importer_launcher.py".
Proof.
  apply (X10_posix_resolved_location_is_stable
           "/opt/kicad/bin" "/srv/unrelated"
           "../plugins/ultra/importer_launcher.py").
  reflexivity.
Defined.

Lemma X11_normalized_witness :
  exists (k : nat) (cs : list string),
    (k = 1%nat \/ k = 2%nat)
    /\ Forall posixpath.plain cs
    /\ os.path.resolve "//srv/./kicad/x/.." "plugins//importer_launcher.py"
       = pystr.seps k ++ String.concat "/" cs
    /\ importer_launcher.exe_path_of
         "//srv/./kicad/x/.." "plugins//importer_launcher.py"
       = pystr.seps k ++ String.concat "/"
           (removelast cs ++ ["bin"; "UltralibrarianImporter.exe"])
    /\ posixpath.normpath
         (importer_launcher.exe_path_of
            "//srv/./kicad/x/.." "plugins//importer_launcher.py")
       = importer_launcher.exe_path_of
           "//srv/./kicad/x/.." "plugins//importer_launcher.py".
Proof.
  apply (X11_posix_exe_path_is_normalized
           "//srv/./kicad/x/.." "plugins//importer_launcher.py").
  reflexivity.
Defined.

Example double_slash_root_is_kept :
  importer_launcher.exe_path_of
    "//srv/./kicad/x/.." "plugins//importer_launcher.py"
  = "//srv/kicad/plugins/bin/UltralibrarianImporter.exe".
Proof. vm_compute. reflexivity. Qed.

Example script_in_the_root :
  importer_launcher.exe_path_of "/" "importer_launcher.py"
  = "/bin/UltralibrarianImporter.exe".
Proof. vm_compute. reflexivity. Qed.

(** The status the parent reads, on the sample invocations. *)
Example reported_statuses :
  observe.reported_status (result (sample.installed 0)) = Some 0
  /\ observe.reported_status (result (sample.installed 255)) = Some 255
  /\ observe.reported_status (result sample.missing) = Some 1
  /\ observe.reported_status (result sample.directory_in_place) = Some 1
  /\ observe.reported_status (result (sample.killed_by 9)) = Some 247
  /\ observe.reported_status (result (sample.killed_by 15)) = Some 241
  /\ observe.reported_status (result sample.hanging) = None.
Proof. vm_compute. repeat split. Qed.
